(** * get-binance-history.py: a shallow embedding and its verified properties

    The script signs requests to the exchange's REST API, derives a list of
    candidate trading pairs from the account balances and collects the most
    recent FILLED orders.  The embedding follows the Python source function
    by function:

    - Python values that come out of [response.json()] are [json] terms,
      [None] being the JSON [null];
    - a Python [str] is a [string] whose characters are code points below 256;
    - exceptions are the [Raise] branch of [outcome];
    - the clock, the HTTP transport and the standard output are threaded
      through a state-and-exception monad over [World];
    - what the interpreter and its libraries decide, and the script does not
      ([float] parsing, the iteration order of a [set], the [repr] of a
      container), is an operation of the class [Host]. *)

From Stdlib Require Import ZArith List String Ascii Bool Lia DecimalString Sorted Permutation.
From stdpp Require Import base option list gmap strings.
Import ListNotations.

Local Open Scope string_scope.
Local Open Scope list_scope.
Local Open Scope Z_scope.

(** ** Exceptions and results *)

Inductive exn : Type :=
| KeyError (key : string)
| TypeError
| ValueError
| FileNotFoundError
| OSError
| JSONDecodeError
| RequestException.

Inductive outcome (A : Type) : Type :=
| Ok (a : A)
| Raise (e : exn).
Arguments Ok {A} a.
Arguments Raise {A} e.

Definition obind {A B : Type} (m : outcome A) (f : A -> outcome B) : outcome B :=
  match m with
  | Ok a => f a
  | Raise e => Raise e
  end.

Fixpoint ofold {A B : Type} (f : B -> A -> outcome B) (b : B) (l : list A) : outcome B :=
  match l with
  | [] => Ok b
  | a :: l' => obind (f b a) (fun b' => ofold f b' l')
  end.

Fixpoint omap {A B : Type} (f : A -> outcome B) (l : list A) : outcome (list B) :=
  match l with
  | [] => Ok []
  | a :: l' => obind (f a) (fun b => obind (omap f l') (fun bs => Ok (b :: bs)))
  end.

Definition is_ok {A : Type} (m : outcome A) : bool :=
  match m with Ok _ => true | Raise _ => false end.

(** ** Python strings *)

Module PyStr.

Definition dquote : ascii := "034"%char.
Definition squote : ascii := "039"%char.
Definition LF : ascii := "010"%char.
Definition CR : ascii := "013"%char.

(** [str.isspace] on one character, for the code points below 256: the
    ASCII controls 9-13 and 28-31, the space, NEL (133) and the no-break
    space (160). *)
Definition is_space (c : ascii) : bool :=
  let n := N_of_ascii c in
  ((9 <=? n) && (n <=? 13) || (28 <=? n) && (n <=? 32) || (n =? 133) || (n =? 160))%N.

(** [c in chars] *)
Fixpoint contains (c : ascii) (chars : string) : bool :=
  match chars with
  | EmptyString => false
  | String d rest => Ascii.eqb c d || contains c rest
  end.

Fixpoint lstrip_by (p : ascii -> bool) (s : string) : string :=
  match s with
  | EmptyString => EmptyString
  | String c s' => if p c then lstrip_by p s' else s
  end.

Fixpoint rstrip_by (p : ascii -> bool) (s : string) : string :=
  match s with
  | EmptyString => EmptyString
  | String c s' =>
      match rstrip_by p s' with
      | EmptyString => if p c then EmptyString else String c EmptyString
      | r => String c r
      end
  end.

Definition strip_by (p : ascii -> bool) (s : string) : string :=
  rstrip_by p (lstrip_by p s).

(** [s.strip()] *)
Definition strip (s : string) : string := strip_by is_space s.

(** [s.strip(chars)] *)
Definition strip_chars (chars : string) (s : string) : string :=
  strip_by (fun c => contains c chars) s.

(** [s.startswith(p)] *)
Fixpoint startswith (p s : string) : bool :=
  match p, s with
  | EmptyString, _ => true
  | String a p', String b s' => Ascii.eqb a b && startswith p' s'
  | String _ _, EmptyString => false
  end.

(** [bool(s)] *)
Definition truthy (s : string) : bool :=
  match s with EmptyString => false | String _ _ => true end.

(** [s.split(sep, 1)] for a one-character separator: the text before the
    first separator and the text after it, or the whole string alone. *)
Fixpoint split_1 (sep : ascii) (s : string) : list string :=
  match s with
  | EmptyString => [EmptyString]
  | String c s' =>
      if Ascii.eqb c sep then [EmptyString; s']
      else match split_1 sep s' with
           | [] => [String c EmptyString]
           | h :: t => String c h :: t
           end
  end.

(** Iterating a file opened in text mode: one string per line, each with
    its line ending kept and translated to a line feed (universal
    newlines: LF, CR and CR LF all end a line). *)
Fixpoint iter_lines (s : string) : list string :=
  match s with
  | EmptyString => []
  | String c s' =>
      if Ascii.eqb c CR then
        match s' with
        | EmptyString => [String LF EmptyString]
        | String c' _ =>
            if Ascii.eqb c' LF then iter_lines s'
            else String LF EmptyString :: iter_lines s'
        end
      else if Ascii.eqb c LF then String LF EmptyString :: iter_lines s'
      else match iter_lines s' with
           | [] => [String c EmptyString]
           | l :: ls => String c l :: ls
           end
  end.

(** [str(n)] for an integer *)
Definition of_Z (z : Z) : string := NilZero.string_of_int (Z.to_int z).

(** [all_of p s]: every character of [s] satisfies [p]. *)
Fixpoint all_of (p : ascii -> bool) (s : string) : bool :=
  match s with
  | EmptyString => true
  | String c s' => p c && all_of p s'
  end.

Definition head_is (p : ascii -> bool) (s : string) : bool :=
  match s with
  | EmptyString => false
  | String c _ => p c
  end.

Fixpoint last_is (p : ascii -> bool) (s : string) : bool :=
  match s with
  | EmptyString => false
  | String c EmptyString => p c
  | String _ s' => last_is p s'
  end.

End PyStr.

(** ** Configuration: [load_env_file] and the credentials (lines 9-34) *)

(** One turn of the loop [for line in f] of [load_env_file]. *)
Definition env_line (env_vars : gmap string string) (line : string)
  : outcome (gmap string string) :=
  let line := PyStr.strip line in
  if PyStr.truthy line && negb (PyStr.startswith "#" line) && PyStr.contains "=" line then
    match PyStr.split_1 "=" line with
    | [key; value] =>
        Ok (<[PyStr.strip key :=
               PyStr.strip_chars (String PyStr.squote EmptyString)
                 (PyStr.strip_chars (String PyStr.dquote EmptyString)
                    (PyStr.strip value))]> env_vars)
    | _ => Raise ValueError
    end
  else Ok env_vars.

(** [file] is what [open(env_path, 'r')] gives: the decoded text of the
    file, or the exception raised when opening it. *)
Definition load_env_file (file : outcome string) : outcome (gmap string string) :=
  match file with
  | Ok text => ofold env_line ∅ (PyStr.iter_lines text)
  | Raise FileNotFoundError => Ok ∅
  | Raise e => Raise e
  end.

(** [bool(x)] for [x] a string or [None] *)
Definition opt_truthy (x : option string) : bool :=
  match x with
  | Some s => PyStr.truthy s
  | None => false
  end.

(** [a or b] *)
Definition py_or (a b : option string) : option string :=
  if opt_truthy a then a else b.

(** [env_vars.get(name) or os.getenv(name)] *)
Definition resolve_key (env_vars environ : gmap string string) (name : string)
  : option string :=
  py_or (env_vars !! name) (environ !! name).

Record Credentials : Type := {
  cred_api_key : string;
  cred_secret_key : string
}.

(** Module level, lines 26-34: the two keys, or the [ValueError] of line 34. *)
Definition resolve_credentials (file : outcome string) (environ : gmap string string)
  : outcome Credentials :=
  obind (load_env_file file) (fun env_vars =>
    let BINANCE_API_KEY := resolve_key env_vars environ "BINANCE_API_KEY" in
    let BINANCE_SECRET_KEY := resolve_key env_vars environ "BINANCE_SECRET_KEY" in
    if negb (opt_truthy BINANCE_API_KEY) || negb (opt_truthy BINANCE_SECRET_KEY)
    then Raise ValueError
    else match BINANCE_API_KEY, BINANCE_SECRET_KEY with
         | Some a, Some s => Ok {| cred_api_key := a; cred_secret_key := s |}
         | _, _ => Raise ValueError
         end).

(** ** Bytes, SHA-256 and HMAC ([hashlib.sha256], [hmac.new]) *)

(** A byte is an integer in [0, 256). *)
Definition bytes : Type := list Z.

(** [s.encode('utf-8')], for code points below 256: one byte below 128,
    two bytes from 128 on. *)
Fixpoint encode_utf8 (s : string) : bytes :=
  match s with
  | EmptyString => []
  | String c s' =>
      let n := Z.of_N (N_of_ascii c) in
      if n <? 128 then n :: encode_utf8 s'
      else Z.lor 192 (Z.shiftr n 6) :: Z.lor 128 (Z.land n 63) :: encode_utf8 s'
  end.

Module Sha256.

Definition mask32 : Z := 2 ^ 32 - 1.
Definition add32 (x y : Z) : Z := Z.land (x + y) mask32.
Definition rotr (n x : Z) : Z :=
  Z.lor (Z.shiftr x n) (Z.land (Z.shiftl x (32 - n)) mask32).
Definition shr (n x : Z) : Z := Z.shiftr x n.

Definition Ch (x y z : Z) : Z :=
  Z.lxor (Z.land x y) (Z.land (Z.lxor x mask32) z).
Definition Maj (x y z : Z) : Z :=
  Z.lxor (Z.lxor (Z.land x y) (Z.land x z)) (Z.land y z).
Definition bsig0 (x : Z) : Z := Z.lxor (Z.lxor (rotr 2 x) (rotr 13 x)) (rotr 22 x).
Definition bsig1 (x : Z) : Z := Z.lxor (Z.lxor (rotr 6 x) (rotr 11 x)) (rotr 25 x).
Definition ssig0 (x : Z) : Z := Z.lxor (Z.lxor (rotr 7 x) (rotr 18 x)) (shr 3 x).
Definition ssig1 (x : Z) : Z := Z.lxor (Z.lxor (rotr 17 x) (rotr 19 x)) (shr 10 x).

(** The round constants are the first 32 bits of the fractional parts of
    the cube roots of the first 64 primes, the initial state those of the
    square roots of the first 8. *)
Definition primes : list Z :=
  [2; 3; 5; 7; 11; 13; 17; 19; 23; 29; 31; 37; 41; 43; 47; 53;
   59; 61; 67; 71; 73; 79; 83; 89; 97; 101; 103; 107; 109; 113; 127; 131;
   137; 139; 149; 151; 157; 163; 167; 173; 179; 181; 191; 193; 197; 199; 211; 223;
   227; 229; 233; 239; 241; 251; 257; 263; 269; 271; 277; 281; 283; 293; 307; 311].

Fixpoint icbrt_from (bit : nat) (r n : Z) : Z :=
  let r' := r + 2 ^ Z.of_nat bit in
  let r2 := if r' * r' * r' <=? n then r' else r in
  match bit with
  | O => r2
  | S bit' => icbrt_from bit' r2 n
  end.

Definition frac_cbrt32 (p : Z) : Z := Z.land (icbrt_from 40 0 (p * 2 ^ 96)) mask32.
Definition frac_sqrt32 (p : Z) : Z := Z.land (Z.sqrt (p * 2 ^ 64)) mask32.

Definition K : list Z := Eval vm_compute in map frac_cbrt32 primes.

Record state : Type := St {
  ha : Z; hb : Z; hc : Z; hd : Z; he : Z; hf : Z; hg : Z; hh : Z
}.

Definition init : state :=
  Eval vm_compute in
    St (frac_sqrt32 2) (frac_sqrt32 3) (frac_sqrt32 5) (frac_sqrt32 7)
       (frac_sqrt32 11) (frac_sqrt32 13) (frac_sqrt32 17) (frac_sqrt32 19).

(** The message schedule, from a window of the last sixteen words. *)
Fixpoint schedule (n : nat) (win : list Z) : list Z :=
  match n with
  | O => []
  | S n' =>
      let x := add32 (add32 (ssig1 (nth 14 win 0)) (nth 9 win 0))
                     (add32 (ssig0 (nth 1 win 0)) (nth 0 win 0)) in
      x :: schedule n' (tl win ++ [x])
  end.

Definition round (s : state) (kw : Z * Z) : state :=
  let t1 := add32 (add32 (add32 (hh s) (bsig1 (he s))) (Ch (he s) (hf s) (hg s)))
                  (add32 (fst kw) (snd kw)) in
  let t2 := add32 (bsig0 (ha s)) (Maj (ha s) (hb s) (hc s)) in
  St (add32 t1 t2) (ha s) (hb s) (hc s) (add32 (hd s) t1) (he s) (hf s) (hg s).

Definition compress (s : state) (block : list Z) : state :=
  let w := block ++ schedule 48 block in
  let r := fold_left round (combine K w) s in
  St (add32 (ha s) (ha r)) (add32 (hb s) (hb r)) (add32 (hc s) (hc r))
     (add32 (hd s) (hd r)) (add32 (he s) (he r)) (add32 (hf s) (hf r))
     (add32 (hg s) (hg r)) (add32 (hh s) (hh r)).

(** Big-endian bytes of a number, [n] of them. *)
Fixpoint be_bytes (n : nat) (x : Z) : bytes :=
  match n with
  | O => []
  | S n' => Z.land (Z.shiftr x (8 * Z.of_nat n')) 255 :: be_bytes n' x
  end.

Definition padding (len : Z) : bytes :=
  128 :: repeat 0 (Z.to_nat ((55 - len) mod 64)) ++ be_bytes 8 (8 * len).

Fixpoint be_words (fuel : nat) (l : bytes) : list Z :=
  match fuel, l with
  | S fuel', b0 :: b1 :: b2 :: b3 :: rest =>
      (Z.shiftl b0 24 + Z.shiftl b1 16 + Z.shiftl b2 8 + b3) :: be_words fuel' rest
  | _, _ => []
  end.

Fixpoint blocks (fuel : nat) (ws : list Z) : list (list Z) :=
  match fuel, ws with
  | S fuel', _ :: _ => firstn 16 ws :: blocks fuel' (skipn 16 ws)
  | _, _ => []
  end.

Definition digest (msg : bytes) : bytes :=
  let padded := msg ++ padding (Z.of_nat (length msg)) in
  let ws := be_words (length padded) padded in
  let s := fold_left compress (blocks (length ws) ws) init in
  be_bytes 4 (ha s) ++ be_bytes 4 (hb s) ++ be_bytes 4 (hc s) ++ be_bytes 4 (hd s) ++
  be_bytes 4 (he s) ++ be_bytes 4 (hf s) ++ be_bytes 4 (hg s) ++ be_bytes 4 (hh s).

End Sha256.

Module Hmac.

Definition block_size : nat := 64.

(** [hmac.new(key, msg, hashlib.sha256).digest()] *)
Definition hmac_sha256 (key msg : bytes) : bytes :=
  let key := if (block_size <? length key)%nat then Sha256.digest key else key in
  let key := key ++ repeat 0 (block_size - length key) in
  let ipad := map (Z.lxor 54) key in
  let opad := map (Z.lxor 92) key in
  Sha256.digest (opad ++ Sha256.digest (ipad ++ msg)).

Definition hex_digit (n : Z) : ascii :=
  ascii_of_N (Z.to_N (if n <? 10 then 48 + n else 87 + n)).

(** [.hexdigest()]: two lower-case hexadecimal digits per byte. *)
Fixpoint hex (bs : bytes) : string :=
  match bs with
  | [] => EmptyString
  | b :: bs' => String (hex_digit (Z.shiftr b 4)) (String (hex_digit (Z.land b 15)) (hex bs'))
  end.

Definition is_hex_digit (c : ascii) : bool :=
  let n := N_of_ascii c in
  ((48 <=? n) && (n <=? 57) || (97 <=? n) && (n <=? 102))%N.

End Hmac.

(** ** Python values *)

(** What [response.json()] returns, and what the script passes around.
    [JNull] is [None].  Numbers are integers: the exchange sends every
    decimal quantity as a string. *)
#[local] Set Warnings "-register-all".
Inductive json : Type :=
| JNull
| JBool (b : bool)
| JInt (z : Z)
| JStr (s : string)
| JList (l : list json)
| JDict (d : list (string * json)).

(** A [dict] with string keys, in insertion order. *)
Definition dict : Type := list (string * json).

(** [d.get(k)] *)
Fixpoint dict_get (k : string) (d : dict) : option json :=
  match d with
  | [] => None
  | (k', v) :: d' => if String.eqb k' k then Some v else dict_get k d'
  end.

(** [d[k] = v]: a key that is present keeps its place and takes the new
    value, a new key goes to the end. *)
Fixpoint dict_set (d : dict) (k : string) (v : json) : dict :=
  match d with
  | [] => [(k, v)]
  | (k', v') :: d' =>
      if String.eqb k' k then (k', v) :: d' else (k', v') :: dict_set d' k v
  end.

Definition dict_keys (d : dict) : list string := map fst d.

(** [bool(v)] *)
Definition py_truthy (v : json) : bool :=
  match v with
  | JNull => false
  | JBool b => b
  | JInt z => negb (z =? 0)
  | JStr s => PyStr.truthy s
  | JList l => match l with [] => false | _ :: _ => true end
  | JDict d => match d with [] => false | _ :: _ => true end
  end.

(** [v[k]] for a string [k] *)
Definition py_getitem (v : json) (k : string) : outcome json :=
  match v with
  | JDict d => match dict_get k d with
               | Some x => Ok x
               | None => Raise (KeyError k)
               end
  | _ => Raise TypeError
  end.

Fixpoint chars_of (s : string) : list json :=
  match s with
  | EmptyString => []
  | String c s' => JStr (String c EmptyString) :: chars_of s'
  end.

(** The items of [for x in v] *)
Definition py_iter (v : json) : outcome (list json) :=
  match v with
  | JList l => Ok l
  | JDict d => Ok (map JStr (dict_keys d))
  | JStr s => Ok (chars_of s)
  | _ => Raise TypeError
  end.

(** [v == s] for a string [s] *)
Definition py_eq_str (v : json) (s : string) : bool :=
  match v with
  | JStr s' => String.eqb s' s
  | _ => false
  end.

(** [l[:n]] *)
Definition py_slice_to {A : Type} (n : Z) (l : list A) : list A :=
  if 0 <=? n then firstn (Z.to_nat n) l
  else firstn (Z.to_nat (Z.of_nat (length l) + n)) l.

(** [[x for x in l if p(x)]], [p] possibly raising *)
Fixpoint ofilter {A : Type} (p : A -> outcome bool) (l : list A) : outcome (list A) :=
  match l with
  | [] => Ok []
  | x :: l' =>
      obind (p x) (fun b =>
      obind (ofilter p l') (fun r => Ok (if b then x :: r else r)))
  end.

(** ** The host: interpreter, libraries and the outside world *)

Record Request : Type := {
  req_url : string;
  req_params : dict;
  req_headers : list (string * string)
}.

(** [json_body] is the result of [response.json()] on the body. *)
Record Response : Type := {
  status_code : Z;
  text : string;
  json_body : outcome json
}.

Class Host : Type := {
  (** the successive values of [int(time.time() * 1000)] *)
  clock : nat -> Z;
  (** [requests.get]: the reply to a request, given the requests sent before *)
  http_get : list Request -> Request -> outcome Response;
  (** [float(v) > 0] *)
  float_gt0 : json -> outcome bool;
  (** [str(v)] for a list or a dict *)
  repr_container : json -> string;
  (** [list(set(l))] *)
  list_of_set : list string -> list string
}.

(** What Python guarantees of [list(set(l))]: the members of [l], once each. *)
Definition set_semantics (H : Host) : Prop :=
  forall l : list string,
    NoDup (list_of_set l) /\ forall x, x ∈ list_of_set l <-> x ∈ l.

(** [str(v)], which is also what an f-string does with [{v}] *)
Definition py_str `{Host} (v : json) : string :=
  match v with
  | JNull => "None"
  | JBool true => "True"
  | JBool false => "False"
  | JInt z => PyStr.of_Z z
  | JStr s => s
  | _ => repr_container v
  end.

(** ** [urllib.parse.urlencode] *)

Module Url.

(** Letters, digits and [_ . - ~] are never quoted. *)
Definition always_safe (n : Z) : bool :=
  (65 <=? n) && (n <=? 90) || (97 <=? n) && (n <=? 122) || (48 <=? n) && (n <=? 57)
  || (n =? 95) || (n =? 46) || (n =? 45) || (n =? 126).

Definition HEX_digit (n : Z) : ascii :=
  ascii_of_N (Z.to_N (if n <? 10 then 48 + n else 55 + n)).

Definition quote_byte (n : Z) : string :=
  if always_safe n then String (ascii_of_N (Z.to_N n)) EmptyString
  else if n =? 32 then "+"
  else String "%" (String (HEX_digit (Z.shiftr n 4))
                     (String (HEX_digit (Z.land n 15)) EmptyString)).

(** [quote_plus(s)] *)
Definition quote_plus (s : string) : string :=
  String.concat "" (map quote_byte (encode_utf8 s)).

(** [urlencode(params)] *)
Definition urlencode `{Host} (params : dict) : string :=
  String.concat "&"
    (map (fun kv => (quote_plus (fst kv) ++ "=" ++ quote_plus (py_str (snd kv)))%string)
         params).

End Url.

(** ** The monad of the script: world state and exceptions *)

Record World : Type := {
  ticks : nat;              (** how often the clock was read *)
  sent : list Request;      (** the requests handed to [requests.get] *)
  stdout : list string      (** the lines printed *)
}.

Definition M (A : Type) : Type := World -> outcome A * World.

Definition ret {A : Type} (a : A) : M A := fun w => (Ok a, w).

Definition bind {A B : Type} (m : M A) (f : A -> M B) : M B :=
  fun w => match m w with
           | (Ok a, w') => f a w'
           | (Raise e, w') => (Raise e, w')
           end.

Definition lift {A : Type} (o : outcome A) : M A := fun w => (o, w).

(** [try: m  except: h] *)
Definition try_except {A : Type} (m : M A) (h : M A) : M A :=
  fun w => match m w with
           | (Ok a, w') => (Ok a, w')
           | (Raise _, w') => h w'
           end.

Declare Scope py_scope.
Delimit Scope py_scope with py.
Notation "x <- m ;; k" := (bind m (fun x => k))
  (at level 100, m at next level, right associativity) : py_scope.
Notation "m ;; k" := (bind m (fun _ => k))
  (at level 100, right associativity) : py_scope.
Local Open Scope py_scope.

(** [int(time.time() * 1000)] *)
Definition time_ms `{Host} : M Z :=
  fun w => (Ok (clock (ticks w)),
            {| ticks := S (ticks w); sent := sent w; stdout := stdout w |}).

(** [requests.get(url, params=params, headers=headers)] *)
Definition requests_get `{Host} (url : string) (params : dict)
    (headers : list (string * string)) : M Response :=
  fun w =>
    let r := {| req_url := url; req_params := params; req_headers := headers |} in
    (http_get (sent w) r,
     {| ticks := ticks w; sent := sent w ++ [r]; stdout := stdout w |}).

(** [print(line)] *)
Definition print (line : string) : M unit :=
  fun w => (Ok tt, {| ticks := ticks w; sent := sent w; stdout := stdout w ++ [line] |}).

(** ** [class BinanceAPI] (lines 36-159) *)

Record BinanceAPI : Type := {
  api_key : string;
  secret_key : string;
  base_url : string
}.

(** [__init__] *)
Definition BinanceAPI_init (api_key secret_key : string) : BinanceAPI :=
  {| api_key := api_key; secret_key := secret_key;
     base_url := "https://api.binance.com" |}.

Section Methods.
Context `{Host}.
Variable self : BinanceAPI.

Definition _generate_signature (query_string : string) : M string :=
  ret (Hmac.hex (Hmac.hmac_sha256 (encode_utf8 (secret_key self))
                                  (encode_utf8 query_string))).

(** [params] is [None] or the caller's dict.  The method updates that
    dict in place; no caller looks at it again, so the embedding does not
    hand it back. *)
Definition _make_request (endpoint : string) (params : option dict) : M json :=
  let params := match params with None => [] | Some p => p end in
  t <- time_ms ;;
  let params := dict_set params "timestamp" (JInt t) in
  let query_string := Url.urlencode params in
  signature <- _generate_signature query_string ;;
  let params := dict_set params "signature" (JStr signature) in
  let headers := [("X-MBX-APIKEY", api_key self)] in
  let url := (base_url self ++ endpoint)%string in
  response <- requests_get url params headers ;;
  if status_code response =? 200 then
    lift (json_body response)
  else
    print ("Erreur API: " ++ PyStr.of_Z (status_code response))%string ;;
    print ("Message: " ++ text response)%string ;;
    ret JNull.

Definition get_last_trade (symbol : json) (limit : Z) : M json :=
  let endpoint := "/api/v3/myTrades" in
  let params := [("limit", JInt limit)] in
  let params := if py_truthy symbol then dict_set params "symbol" symbol else params in
  trades <- _make_request endpoint (Some params) ;;
  ret trades.

Definition get_account_info : M json :=
  let endpoint := "/api/v3/account" in
  _make_request endpoint None.

Definition get_open_orders : M json :=
  let endpoint := "/api/v3/openOrders" in
  _make_request endpoint None.

Definition get_all_orders (symbol : json) (limit : Z) : M json :=
  let endpoint := "/api/v3/allOrders" in
  let params := [("limit", JInt limit)] in
  let params := if py_truthy symbol then dict_set params "symbol" symbol else params in
  orders <- _make_request endpoint (Some params) ;;
  ret orders.

(** *** The candidate symbols (lines 128-141) *)

(** Line 133 *)
Definition common_pairs (asset : string) : list string :=
  [asset ++ "USDT"; asset ++ "BTC"; asset ++ "ETH"; "BTC" ++ asset; "ETH" ++ asset]%string.

(** Line 137 *)
Definition popular_symbols : list string :=
  ["BTCUSDT"; "ETHUSDT"; "BNBUSDT"; "ADAUSDT"; "SOLUSDT"].

(** Line 130: [float(balance['free']) > 0 or float(balance['locked']) > 0] *)
Definition has_balance (balance : json) : outcome bool :=
  obind (py_getitem balance "free") (fun free =>
  obind (float_gt0 free) (fun b =>
  if b then Ok true
  else obind (py_getitem balance "locked") float_gt0)).

(** One turn of the loop of lines 129-134: what it appends. *)
Definition balance_pairs (balance : json) : outcome (list string) :=
  obind (has_balance balance) (fun b =>
  if b then
    obind (py_getitem balance "asset") (fun asset => Ok (common_pairs (py_str asset)))
  else Ok []).

(** Lines 128-138: the list before the duplicates are removed. *)
Definition symbols_with_balance (account_info : json) : outcome (list string) :=
  obind (py_getitem account_info "balances") (fun balances =>
  obind (py_iter balances) (fun items =>
  obind (omap balance_pairs items) (fun pairs =>
  Ok (concat pairs ++ popular_symbols)))).

(** Lines 128-141 *)
Definition candidate_symbols (account_info : json) : outcome (list string) :=
  obind (symbols_with_balance account_info) (fun l => Ok (list_of_set l)).

(** *** The scan (lines 144-152) *)

(** Line 149 *)
Definition filled_orders (orders : json) : outcome (list json) :=
  obind (py_iter orders) (fun items =>
  ofilter (fun order =>
             obind (py_getitem order "status") (fun st => Ok (py_eq_str st "FILLED")))
          items).

(** One turn of the loop of lines 144-152. *)
Definition scan_symbol (all_filled_orders : list json) (symbol : string)
  : M (list json) :=
  try_except
    (orders <- get_all_orders (JStr symbol) 20 ;;
     if py_truthy orders then
       filled <- lift (filled_orders orders) ;;
       ret (all_filled_orders ++ filled)
     else ret all_filled_orders)
    (ret all_filled_orders).

Fixpoint scan (all_filled_orders : list json) (symbols : list string)
  : M (list json) :=
  match symbols with
  | [] => ret all_filled_orders
  | symbol :: rest =>
      all_filled_orders <- scan_symbol all_filled_orders symbol ;;
      scan all_filled_orders rest
  end.

(** *** Sorting (line 156) *)

(** Keys that compare as numbers, and keys that compare as strings. *)
Definition num_key (k : json) : option Z :=
  match k with
  | JInt z => Some z
  | JBool b => Some (if b then 1 else 0)
  | _ => None
  end.

Definition str_key (k : json) : option string :=
  match k with
  | JStr s => Some s
  | _ => None
  end.

Fixpoint insert_desc {K A : Type} (lt : K -> K -> bool) (x : K * A) (l : list (K * A))
  : list (K * A) :=
  match l with
  | [] => [x]
  | y :: l' => if lt (fst x) (fst y) then y :: insert_desc lt x l' else x :: l
  end.

(** Stable, largest key first: of two items with equal keys the one that
    came first stays first. *)
Definition sort_desc {K A : Type} (lt : K -> K -> bool) (l : list (K * A)) : list A :=
  map snd (fold_right (insert_desc lt) [] l).

(** [l.sort(key=lambda x: x['time'], reverse=True)].  The keys are
    computed first.  Two or more items are then compared with [<]: numbers
    with numbers, strings with strings, anything else is a [TypeError]
    (keys that are themselves lists, which Python orders item by item, are
    not modelled and count as an error here). *)
Definition sort_by_time_reverse (l : list json) : outcome (list json) :=
  obind (omap (fun x => py_getitem x "time") l) (fun keys =>
  if (length l <=? 1)%nat then Ok l
  else match mapM num_key keys with
       | Some ks => Ok (sort_desc Z.ltb (combine ks l))
       | None =>
           match mapM str_key keys with
           | Some ks => Ok (sort_desc String.ltb (combine ks l))
           | None => Raise TypeError
           end
       end).

(** *** [get_recent_filled_orders] (lines 119-159) *)

Definition get_recent_filled_orders (limit : Z) : M (list json) :=
  account_info <- get_account_info ;;
  if negb (py_truthy account_info) then ret []
  else
    symbols_with_balance <- lift (candidate_symbols account_info) ;;
    all_filled_orders <- scan [] (firstn 15 symbols_with_balance) ;;
    match all_filled_orders with
    | _ :: _ =>
        all_filled_orders <- lift (sort_by_time_reverse all_filled_orders) ;;
        ret (py_slice_to limit all_filled_orders)
    | [] => ret []
    end.

End Methods.

(** ** Vocabulary of the specification *)

(** What the outcome of one [get_all_orders] adds to [all_filled_orders]
    in lines 147-152: the FILLED orders of a truthy result that line 149
    can filter, and nothing otherwise. *)
Definition fills_of (fetched : outcome json) : list json :=
  match fetched with
  | Ok orders =>
      if py_truthy orders then
        match filled_orders orders with
        | Ok filled => filled
        | Raise _ => []
        end
      else []
  | Raise _ => []
  end.

(** What [_make_request] makes of the transport's reply. *)
Definition result_of_reply (reply : outcome Response) : outcome json :=
  match reply with
  | Ok response => if status_code response =? 200 then json_body response else Ok JNull
  | Raise e => Raise e
  end.

(** The FILLED orders that one reply to an order request contributes. *)
Definition reply_fills (reply : outcome Response) : list json :=
  fills_of (result_of_reply reply).

(** A 200 reply whose body parses to [v]. *)
Definition answers (reply : outcome Response) (v : json) : Prop :=
  match reply with
  | Ok response => status_code response = 200 /\ json_body response = Ok v
  | Raise _ => False
  end.

(** [r] asks for the orders of [symbol]; [r] asks for the account. *)
Definition is_orders_request (self : BinanceAPI) (r : Request) (symbol : string) : Prop :=
  req_url r = (base_url self ++ "/api/v3/allOrders")%string /\
  dict_get "symbol" (req_params r) = Some (JStr symbol).

Definition is_account_request (self : BinanceAPI) (r : Request) : Prop :=
  req_url r = (base_url self ++ "/api/v3/account")%string.

(** Of two keyed items, the first has the larger key, or the same. *)
Definition key_ge {A : Type} (a b : Z * A) : Prop := fst a >= fst b.

(** What the fetch for [symbol] is worth in the fixture of the two symbols:
    the FILLED orders of times 100 and 300 for BTCUSDT, the one of time 200
    for ETHUSDT, nothing for any other symbol. *)
Definition fixture_worth (o100 o200 o300 : json) (symbol : string) : list json :=
  if String.eqb symbol "BTCUSDT" then [o100; o300]
  else if String.eqb symbol "ETHUSDT" then [o200]
  else [].

(** [r] is [s] without its leading and trailing characters that satisfy [p]. *)
Definition stripped (p : ascii -> bool) (s r : string) : Prop :=
  exists pre post : string,
    s = (pre ++ r ++ post)%string /\
    PyStr.all_of p pre = true /\ PyStr.all_of p post = true /\
    PyStr.head_is p r = false /\ PyStr.last_is p r = false.

Definition is_byte (b : Z) : Prop := 0 <= b < 256.

(** The request that [_make_request(endpoint, params)] hands to
    [requests.get] when the clock shows [t]. *)
Definition request_of `{Host} (self : BinanceAPI) (endpoint : string)
    (params : option dict) (t : Z) : Request :=
  let params := match params with None => [] | Some p => p end in
  let params := dict_set params "timestamp" (JInt t) in
  let signature :=
    Hmac.hex (Hmac.hmac_sha256 (encode_utf8 (secret_key self))
                               (encode_utf8 (Url.urlencode params))) in
  {| req_url := (base_url self ++ endpoint)%string;
     req_params := dict_set params "signature" (JStr signature);
     req_headers := [("X-MBX-APIKEY", api_key self)] |}.

(** The request of [get_all_orders(symbol, limit=20)]. *)
Definition orders_request `{Host} (self : BinanceAPI) (symbol : string) (t : Z) : Request :=
  request_of self "/api/v3/allOrders" (Some [("limit", JInt 20); ("symbol", JStr symbol)]) t.

(** The request of [get_account_info()]. *)
Definition account_request `{Host} (self : BinanceAPI) (t : Z) : Request :=
  request_of self "/api/v3/account" None t.

(** The world once a request has gone out. *)
Definition after_request (w : World) (r : Request) : World :=
  {| ticks := S (ticks w); sent := sent w ++ [r]; stdout := stdout w |}.

(** The world once a line has been printed. *)
Definition after_print (w : World) (line : string) : World :=
  {| ticks := ticks w; sent := sent w; stdout := stdout w ++ [line] |}.

(** ** Further vocabulary *)

(** The entry that one line of the [.env] file assigns, when it assigns
    one: what lines 17-20 compute before they store it. *)
Definition env_entry (line : string) : option (string * string) :=
  let line := PyStr.strip line in
  if PyStr.truthy line && negb (PyStr.startswith "#" line) && PyStr.contains "=" line then
    match PyStr.split_1 "=" line with
    | [key; value] =>
        Some (PyStr.strip key,
              PyStr.strip_chars (String PyStr.squote EmptyString)
                (PyStr.strip_chars (String PyStr.dquote EmptyString)
                   (PyStr.strip value)))
    | _ => None
    end
  else None.

(** [name] has a value that is not empty in [m]. *)
Definition has_value (m : gmap string string) (name : string) : Prop :=
  exists v, m !! name = Some v /\ v <> EmptyString.

(** Every character of [s] is one that [quote_plus] leaves as it is. *)
Definition url_safe (s : string) : bool :=
  PyStr.all_of (fun c => Url.always_safe (Z.of_N (N_of_ascii c))) s.

(** The order requests for [symbols], one after the other, the first one
    stamped with the [n]-th clock reading. *)
Fixpoint order_requests `{Host} (self : BinanceAPI) (symbols : list string) (n : nat)
  : list Request :=
  match symbols with
  | [] => []
  | symbol :: rest => orders_request self symbol (clock n) :: order_requests self rest (S n)
  end.

(** An order whose status is FILLED. *)
Definition is_filled (order : json) : Prop :=
  py_getitem order "status" = Ok (JStr "FILLED").

(** The [time] of an order as a number, 0 when it has none. *)
Definition order_time (order : json) : Z :=
  match py_getitem order "time" with
  | Ok k => match num_key k with Some z => z | None => 0 end
  | Raise _ => 0
  end.

(** What one turn of the loop of [load_env_file] leaves in the mapping. *)
Definition apply_entry (env_vars : gmap string string) (line : string)
  : gmap string string :=
  match env_entry line with
  | Some (key, value) => <[key := value]> env_vars
  | None => env_vars
  end.

(** The line assigns a value to [key]. *)
Definition assigns (line key : string) : Prop :=
  exists value, env_entry line = Some (key, value).

(** The balance counts for line 130: [free > 0 or locked > 0] holds. *)
Definition funded `{Host} (balance : json) : bool :=
  match has_balance balance with
  | Ok true => true
  | _ => false
  end.

(** ** A host and an exchange for the examples *)

Module Fixture.

Definition is_digit (c : ascii) : bool :=
  let n := N_of_ascii c in ((48 <=? n) && (n <=? 57))%N.

Definition is_nonzero_digit (c : ascii) : bool :=
  let n := N_of_ascii c in ((49 <=? n) && (n <=? 57))%N.

Fixpoint any_of (p : ascii -> bool) (s : string) : bool :=
  match s with
  | EmptyString => false
  | String c s' => p c || any_of p s'
  end.

(** [float(v) > 0] for the values the exchange sends: integers and plain
    decimals such as ["0.00100000"]. *)
Definition decimal_gt0 (v : json) : outcome bool :=
  match v with
  | JInt z => Ok (0 <? z)
  | JBool b => Ok b
  | JStr s =>
      if PyStr.all_of (fun c => is_digit c || Ascii.eqb c ".") s && any_of is_digit s
      then Ok (any_of is_nonzero_digit s)
      else Raise ValueError
  | _ => Raise TypeError
  end.

Definition balance (asset free locked : string) : json :=
  JDict [("asset", JStr asset); ("free", JStr free); ("locked", JStr locked)].

Definition order (symbol : string) (orderId : Z) (status : string) (time : Z) : json :=
  JDict [("symbol", JStr symbol); ("orderId", JInt orderId);
         ("status", JStr status); ("time", JInt time)].

Definition account : json :=
  JDict [("makerCommission", JInt 10);
         ("balances", JList [balance "BTC" "0.50000000" "0.00000000";
                             balance "ETH" "1.25000000" "0.00000000";
                             balance "LTC" "0.00000000" "0.00000000"])].

Definition btc_orders : json :=
  JList [order "BTCUSDT" 1 "FILLED" 100; order "BTCUSDT" 2 "CANCELED" 250;
         order "BTCUSDT" 3 "FILLED" 300].

Definition eth_orders : json :=
  JList [order "ETHUSDT" 7 "FILLED" 200].

Definition ok_reply (body : json) : outcome Response :=
  Ok {| status_code := 200; text := "..."; json_body := Ok body |}.

Definition bad_symbol : outcome Response :=
  Ok {| status_code := 400; text := "{'code':-1121,'msg':'Invalid symbol.'}";
        json_body := Ok (JDict [("code", JInt (-1121)); ("msg", JStr "Invalid symbol.")]) |}.

Definition teapot : outcome Response :=
  Ok {| status_code := 418; text := "banned"; json_body := Raise JSONDecodeError |}.

(** The exchange: two symbols have orders, every other symbol is unknown. *)
Definition exchange (history : list Request) (r : Request) : outcome Response :=
  if String.eqb (req_url r) "https://api.binance.com/api/v3/account" then ok_reply account
  else if String.eqb (req_url r) "https://api.binance.com/api/v3/allOrders" then
    match dict_get "symbol" (req_params r) with
    | Some (JStr symbol) =>
        if String.eqb symbol "BTCUSDT" then ok_reply btc_orders
        else if String.eqb symbol "ETHUSDT" then ok_reply eth_orders
        else bad_symbol
    | _ => bad_symbol
    end
  else teapot.

Definition host : Host :=
  {| clock := fun n => 1700000000000 + Z.of_nat n;
     http_get := exchange;
     float_gt0 := decimal_gt0;
     repr_container := fun _ => "[...]";
     list_of_set := remove_dups |}.

(** The same exchange out of reach: no request gets a reply. *)
Definition offline : Host :=
  {| clock := fun n => 1700000000000 + Z.of_nat n;
     http_get := fun _ _ => Raise RequestException;
     float_gt0 := decimal_gt0;
     repr_container := fun _ => "[...]";
     list_of_set := remove_dups |}.

(** An exchange that bans the client. *)
Definition banned : Host :=
  {| clock := fun n => 1700000000000 + Z.of_nat n;
     http_get := fun _ _ => teapot;
     float_gt0 := decimal_gt0;
     repr_container := fun _ => "[...]";
     list_of_set := remove_dups |}.

(** An account with nothing on it and a symbol with one open order. *)
Definition idle_account : json :=
  JDict [("balances", JList [balance "BTC" "0.00000000" "0.00000000"])].

Definition open_orders : json :=
  JList [order "BTCUSDT" 5 "NEW" 400].

Definition idle_exchange (history : list Request) (r : Request) : outcome Response :=
  if String.eqb (req_url r) "https://api.binance.com/api/v3/account"
  then ok_reply idle_account
  else ok_reply open_orders.

Definition idle : Host :=
  {| clock := fun n => 1700000000000 + Z.of_nat n;
     http_get := idle_exchange;
     float_gt0 := decimal_gt0;
     repr_container := fun _ => "[...]";
     list_of_set := remove_dups |}.

(** The [time] of an order, 0 when it has none. *)
Definition time_of (o : json) : Z :=
  match py_getitem o "time" with
  | Ok (JInt z) => z
  | _ => 0
  end.

Definition client : BinanceAPI := BinanceAPI_init "my-api-key" "my-secret-key".

Definition start : World := {| ticks := 0; sent := []; stdout := [] |}.

(** A [.env] file that leaves the API key blank. *)
Definition env_text : string :=
  "# exchange credentials
BINANCE_API_KEY=
BINANCE_SECRET_KEY = 'file-secret'
".

Definition environ : gmap string string :=
  {["BINANCE_API_KEY" := "env-key"; "BINANCE_SECRET_KEY" := "env-secret"]}.

(** A [.env] file that assigns the same key twice. *)
Definition line_1 : string := String.append "KEY=first" (String PyStr.LF EmptyString).
Definition line_2 : string := String.append " KEY = 'second' " (String PyStr.LF EmptyString).
Definition line_3 : string := "# KEY=third".
Definition twice_text : string := String.append line_1 (String.append line_2 line_3).

(** An exchange under maintenance: every reply is a 200 with a message. *)
Definition maintenance : Host :=
  {| clock := fun n => 1700000000000 + Z.of_nat n;
     http_get := fun _ _ => ok_reply (JDict [("msg", JStr "maintenance")]);
     float_gt0 := decimal_gt0;
     repr_container := fun _ => "[...]";
     list_of_set := remove_dups |}.

(** An exchange whose orders are FILLED and carry no time. *)
Definition timeless_order : json := JDict [("status", JStr "FILLED")].

Definition timeless_exchange (history : list Request) (r : Request) : outcome Response :=
  if String.eqb (req_url r) "https://api.binance.com/api/v3/account"
  then ok_reply idle_account
  else ok_reply (JList [timeless_order]).

Definition timeless : Host :=
  {| clock := fun n => 1700000000000 + Z.of_nat n;
     http_get := timeless_exchange;
     float_gt0 := decimal_gt0;
     repr_container := fun _ => "[...]";
     list_of_set := remove_dups |}.

End Fixture.

(** * Properties *)

(** ** Strings *)

Lemma append_cons (c : ascii) (a b : string) :
  (String c a ++ b)%string = String c (a ++ b)%string.
Proof. reflexivity. Qed.

Lemma append_empty (b : string) : (EmptyString ++ b)%string = b.
Proof. reflexivity. Qed.

Lemma lstrip_by_spec (p : ascii -> bool) (s : string) :
  exists pre, s = (pre ++ PyStr.lstrip_by p s)%string /\
              PyStr.all_of p pre = true /\
              PyStr.head_is p (PyStr.lstrip_by p s) = false.
Proof.
  induction s as [|c s IH]; simpl.
  - exists EmptyString. auto.
  - destruct (p c) eqn:Hc.
    + destruct IH as (pre & Heq & Hall & Hhd).
      exists (String c pre). rewrite append_cons. simpl. rewrite Hc, Hall, <- Heq. auto.
    + exists EmptyString. simpl. auto.
Qed.

Lemma rstrip_by_spec (p : ascii -> bool) (s : string) :
  exists post, s = (PyStr.rstrip_by p s ++ post)%string /\
               PyStr.all_of p post = true /\
               PyStr.last_is p (PyStr.rstrip_by p s) = false.
Proof.
  induction s as [|c s IH]; simpl.
  - exists EmptyString. auto.
  - destruct IH as (post & Heq & Hall & Hlast).
    destruct (PyStr.rstrip_by p s) as [|d r] eqn:Hr.
    + rewrite append_empty in Heq. subst post.
      destruct (p c) eqn:Hc.
      * exists (String c s). simpl. rewrite Hc, Hall. auto.
      * exists s. simpl. rewrite Hc. auto.
    + exists post. rewrite append_cons, <- Heq. auto.
Qed.

Lemma rstrip_by_head (p : ascii -> bool) (s : string) :
  PyStr.head_is p s = false -> PyStr.head_is p (PyStr.rstrip_by p s) = false.
Proof.
  destruct s as [|c s]; simpl; auto.
  intros Hc. destruct (PyStr.rstrip_by p s); simpl; rewrite ?Hc; auto.
Qed.

Lemma strip_by_spec (p : ascii -> bool) (s : string) : stripped p s (PyStr.strip_by p s).
Proof.
  unfold stripped, PyStr.strip_by.
  destruct (lstrip_by_spec p s) as (pre & Hs & Hpre & Hhd).
  destruct (rstrip_by_spec p (PyStr.lstrip_by p s)) as (post & Hl & Hpost & Hlast).
  exists pre, post. repeat split; auto.
  - rewrite <- Hl. exact Hs.
  - apply rstrip_by_head, Hhd.
Qed.

Lemma lstrip_by_all (p : ascii -> bool) (s : string) :
  PyStr.all_of p s = true -> PyStr.lstrip_by p s = EmptyString.
Proof.
  induction s as [|c s IH]; simpl; auto.
  destruct (p c); simpl; auto. discriminate.
Qed.

Lemma strip_blank (s : string) :
  PyStr.all_of PyStr.is_space s = true -> PyStr.strip s = EmptyString.
Proof.
  intros Hs. unfold PyStr.strip, PyStr.strip_by. now rewrite lstrip_by_all.
Qed.

Lemma lstrip_by_contains (p : ascii -> bool) (c : ascii) (s : string) :
  PyStr.contains c s = false -> PyStr.contains c (PyStr.lstrip_by p s) = false.
Proof.
  induction s as [|d s IH]; simpl; auto.
  intros Hd. apply orb_false_iff in Hd as [Hcd Hs].
  destruct (p d); simpl; auto. now rewrite Hcd, Hs.
Qed.

Lemma rstrip_by_contains (p : ascii -> bool) (c : ascii) (s : string) :
  PyStr.contains c s = false -> PyStr.contains c (PyStr.rstrip_by p s) = false.
Proof.
  induction s as [|d s IH]; simpl; auto.
  intros Hd. apply orb_false_iff in Hd as [Hcd Hs]. specialize (IH Hs).
  destruct (PyStr.rstrip_by p s) as [|e r].
  - destruct (p d); simpl; auto. now rewrite Hcd.
  - simpl in *. now rewrite Hcd, IH.
Qed.

Lemma strip_contains (c : ascii) (s : string) :
  PyStr.contains c s = false -> PyStr.contains c (PyStr.strip s) = false.
Proof.
  intros Hs. unfold PyStr.strip, PyStr.strip_by.
  now apply rstrip_by_contains, lstrip_by_contains.
Qed.

Lemma strip_hash (s : string) :
  PyStr.startswith "#" s = true -> PyStr.startswith "#" (PyStr.strip s) = true.
Proof.
  unfold PyStr.strip, PyStr.strip_by.
  destruct s as [|c s]; [discriminate|].
  cbn [PyStr.startswith]. rewrite andb_true_r. intros Hc.
  apply Ascii.eqb_eq in Hc as <-.
  cbn [PyStr.lstrip_by]. change (PyStr.is_space "#") with false.
  cbn [PyStr.rstrip_by]. change (PyStr.is_space "#") with false.
  destruct (PyStr.rstrip_by PyStr.is_space s); reflexivity.
Qed.

Lemma split_1_at (sep : ascii) (k v : string) :
  PyStr.contains sep k = false ->
  PyStr.split_1 sep (k ++ String sep v) = [k; v].
Proof.
  induction k as [|c k IH]; simpl.
  - now rewrite Ascii.eqb_refl.
  - intros Hk. apply orb_false_iff in Hk as [Hc Hk].
    rewrite Ascii.eqb_sym, Hc, (IH Hk). reflexivity.
Qed.

Lemma contains_split (sep : ascii) (s : string) :
  PyStr.contains sep s = true ->
  exists k v, s = (k ++ String sep v)%string /\ PyStr.contains sep k = false.
Proof.
  induction s as [|c s IH]; simpl; [discriminate|].
  destruct (Ascii.eqb sep c) eqn:Hc; simpl.
  - apply Ascii.eqb_eq in Hc as <-. intros _. exists EmptyString, s. auto.
  - intros Hs. destruct (IH Hs) as (k & v & -> & Hk).
    exists (String c k), v. simpl. now rewrite Hc, Hk.
Qed.

Lemma env_line_skip (env_vars : gmap string string) (line : string) :
  PyStr.all_of PyStr.is_space line = true \/
  PyStr.startswith "#" line = true \/
  PyStr.startswith "#" (PyStr.strip line) = true \/
  PyStr.contains "=" line = false ->
  env_line env_vars line = Ok env_vars.
Proof.
  unfold env_line. intros [Hb|[Hh|[Hh|He]]].
  - now rewrite (strip_blank _ Hb).
  - rewrite (strip_hash _ Hh). now rewrite andb_false_r.
  - rewrite Hh. now rewrite andb_false_r.
  - rewrite (strip_contains _ _ He). now rewrite andb_false_r.
Qed.

Lemma env_line_assign (env_vars : gmap string string) (line key value : string) :
  PyStr.strip line = (key ++ "=" ++ value)%string ->
  PyStr.contains "=" key = false ->
  PyStr.startswith "#" (PyStr.strip line) = false ->
  env_line env_vars line =
    Ok (<[PyStr.strip key :=
           PyStr.strip_chars (String PyStr.squote EmptyString)
             (PyStr.strip_chars (String PyStr.dquote EmptyString)
                (PyStr.strip value))]> env_vars).
Proof.
  intros Hl Hk Hh. unfold env_line. rewrite Hh, Hl.
  change (key ++ "=" ++ value)%string with (key ++ String "=" value)%string.
  rewrite (split_1_at _ _ _ Hk).
  assert (PyStr.contains "=" (key ++ String "=" value) = true) as ->.
  { clear. induction key; simpl; [reflexivity|]. rewrite IHkey. apply orb_true_r. }
  assert (PyStr.truthy (key ++ String "=" value) = true) as ->.
  { destruct key; reflexivity. }
  reflexivity.
Qed.

Lemma env_line_ok (env_vars : gmap string string) (line : string) :
  is_ok (env_line env_vars line) = true.
Proof.
  unfold env_line.
  destruct (PyStr.contains "=" (PyStr.strip line)) eqn:He.
  - destruct (contains_split _ _ He) as (k & v & -> & Hk).
    rewrite (split_1_at _ _ _ Hk).
    destruct (_ && _ && _); reflexivity.
  - rewrite andb_false_r. reflexivity.
Qed.

Lemma ofold_ok {A B : Type} (f : B -> A -> outcome B) (l : list A) (b : B) :
  (forall b a, is_ok (f b a) = true) -> is_ok (ofold f b l) = true.
Proof.
  intros Hf. revert b. induction l as [|a l IH]; intros b; simpl; auto.
  specialize (Hf b a). destruct (f b a); simpl; [apply IH | discriminate].
Qed.

(** C10. [load_env_file] gives the empty mapping when the file is missing,
    and with the empty mapping every key is the environment's.  Otherwise it
    folds [env_line] over the lines of the file and never
    fails.  A line that is blank, starts with [#] or has no [=] leaves the
    mapping as it is.  Any other line, stripped, is [key=value] cut at its
    first [=]: the key is stripped of white space, the value of white space,
    then of double quotes, then of single quotes; stripping removes exactly
    the characters of the given kind at both ends. *)
Theorem load_env_file_spec :
  load_env_file (Raise FileNotFoundError) = Ok ∅ /\
  (forall environ name, resolve_key ∅ environ name = environ !! name) /\
  (forall text,
      load_env_file (Ok text) = ofold env_line ∅ (PyStr.iter_lines text) /\
      is_ok (load_env_file (Ok text)) = true) /\
  (forall env_vars line,
      PyStr.all_of PyStr.is_space line = true \/
      PyStr.startswith "#" line = true \/
      PyStr.startswith "#" (PyStr.strip line) = true \/
      PyStr.contains "=" line = false ->
      env_line env_vars line = Ok env_vars) /\
  (forall env_vars line key value,
      PyStr.strip line = (key ++ "=" ++ value)%string ->
      PyStr.contains "=" key = false ->
      PyStr.startswith "#" (PyStr.strip line) = false ->
      env_line env_vars line =
        Ok (<[PyStr.strip key :=
               PyStr.strip_chars (String PyStr.squote EmptyString)
                 (PyStr.strip_chars (String PyStr.dquote EmptyString)
                    (PyStr.strip value))]> env_vars)) /\
  (forall p s, stripped p s (PyStr.strip_by p s)).
Proof.
  split; [reflexivity|]. split; [|split; [|split; [|split]]].
  - intros environ name. unfold resolve_key. now rewrite lookup_empty.
  - intros text. split; [reflexivity|]. apply ofold_ok, env_line_ok.
  - apply env_line_skip.
  - apply env_line_assign.
  - apply strip_by_spec.
Qed.

(** ** Credentials *)

Lemma py_or_truthy (a b : option string) : opt_truthy a = true -> py_or a b = a.
Proof. unfold py_or. now intros ->. Qed.

Lemma py_or_falsy (a b : option string) : opt_truthy a = false -> py_or a b = b.
Proof. unfold py_or. now intros ->. Qed.

Lemma truthy_nonempty (s : string) : PyStr.truthy s = true <-> s <> EmptyString.
Proof. destruct s; simpl; split; congruence. Qed.

(** C7, as amended.  A key that the file defines with a non-empty value
    takes that value, whatever the environment says.  The environment
    variable is used when the file does not define the key, and also when it
    defines it with an empty value.  With both keys non-empty in the file,
    the credentials are the file's. *)
Theorem credentials_precedence (env_vars environ : gmap string string) (name : string) :
  (forall v, env_vars !! name = Some v -> v <> EmptyString ->
             resolve_key env_vars environ name = Some v) /\
  (env_vars !! name = None \/ env_vars !! name = Some EmptyString ->
   resolve_key env_vars environ name = environ !! name) /\
  (forall file a s,
      load_env_file file = Ok env_vars ->
      env_vars !! "BINANCE_API_KEY" = Some a -> a <> EmptyString ->
      env_vars !! "BINANCE_SECRET_KEY" = Some s -> s <> EmptyString ->
      resolve_credentials file environ = Ok {| cred_api_key := a; cred_secret_key := s |}).
Proof.
  split; [|split].
  - intros v Hv Hne. unfold resolve_key. rewrite Hv.
    apply py_or_truthy. simpl. now apply truthy_nonempty.
  - intros [Hn|Hn]; unfold resolve_key; rewrite Hn; now apply py_or_falsy.
  - intros file a s Hf Ha Hna Hs Hns. unfold resolve_credentials, resolve_key.
    rewrite Hf. simpl. rewrite Ha, Hs.
    rewrite !py_or_truthy by (simpl; now apply truthy_nonempty).
    simpl. apply truthy_nonempty in Hna, Hns. now rewrite Hna, Hns.
Qed.

Lemma credentials_precedence_witness :
  resolve_key {["BINANCE_API_KEY" := "file-key"]} Fixture.environ "BINANCE_API_KEY"
    = Some "file-key" /\
  resolve_key {["BINANCE_API_KEY" := ""]} Fixture.environ "BINANCE_API_KEY"
    = Fixture.environ !! "BINANCE_API_KEY".
Proof.
  split.
  - apply (proj1 (credentials_precedence {["BINANCE_API_KEY" := "file-key"]}
                    Fixture.environ "BINANCE_API_KEY")).
    + reflexivity.
    + discriminate.
  - apply (proj1 (proj2 (credentials_precedence {["BINANCE_API_KEY" := ""]}
                           Fixture.environ "BINANCE_API_KEY"))).
    right. reflexivity.
Defined.

(** C7, as stated, fails: this [.env] file defines [BINANCE_API_KEY], with
    an empty value, and the key that is used is the one of the environment. *)
Lemma credentials_blank_file_key :
  exists env_vars,
    load_env_file (Ok Fixture.env_text) = Ok env_vars /\
    env_vars !! "BINANCE_API_KEY" = Some EmptyString /\
    resolve_key env_vars Fixture.environ "BINANCE_API_KEY" = Some "env-key" /\
    resolve_credentials (Ok Fixture.env_text) Fixture.environ
      = Ok {| cred_api_key := "env-key"; cred_secret_key := "file-secret" |}.
Proof.
  eexists. split; [vm_compute; reflexivity|].
  split; [reflexivity|]. split; vm_compute; reflexivity.
Qed.

(** ** The signature *)

(** The digests of the model are those of the standards: FIPS 180-4 for
    SHA-256, RFC 4231 (test case 2) for the HMAC. *)
Example sha256_abc :
  Hmac.hex (Sha256.digest (encode_utf8 "abc"))
  = "ba7816bf8f01cfea414140de5dae2223b00361a396177a9cb410ff61f20015ad".
Proof. vm_compute. reflexivity. Qed.

Example hmac_sha256_rfc4231 :
  Hmac.hex (Hmac.hmac_sha256 (encode_utf8 "Jefe")
                             (encode_utf8 "what do ya want for nothing?"))
  = "5bdcc146bf60754e6a042426089575c75a003f089d2739839dec58b964ec3843".
Proof. vm_compute. reflexivity. Qed.

Lemma land_255_byte (x : Z) : is_byte (Z.land x 255).
Proof.
  unfold is_byte. change 255 with (Z.ones 8).
  rewrite Z.land_ones by lia. apply Z.mod_pos_bound. lia.
Qed.

Lemma be_bytes_bytes (n : nat) (x : Z) : Forall is_byte (Sha256.be_bytes n x).
Proof.
  induction n as [|n IH]; simpl; constructor; auto using land_255_byte.
Qed.

Lemma be_bytes_length (n : nat) (x : Z) : length (Sha256.be_bytes n x) = n.
Proof. induction n as [|n IH]; simpl; congruence. Qed.

Lemma digest_bytes (msg : bytes) : Forall is_byte (Sha256.digest msg).
Proof.
  unfold Sha256.digest. cbv zeta.
  repeat (apply Forall_app; split); apply be_bytes_bytes.
Qed.

Lemma digest_length (msg : bytes) : length (Sha256.digest msg) = 32%nat.
Proof.
  unfold Sha256.digest. cbv zeta.
  rewrite !length_app, !be_bytes_length. reflexivity.
Qed.

Lemma hex_digit_ok (n : Z) : 0 <= n < 16 -> Hmac.is_hex_digit (Hmac.hex_digit n) = true.
Proof.
  intros Hn. rewrite <- (Z2Nat.id n) by lia.
  assert (Z.to_nat n < 16)%nat as Hk by lia.
  revert Hk. generalize (Z.to_nat n). intros k Hk.
  do 16 (destruct k as [|k]; [reflexivity|]). lia.
Qed.

Lemma hex_length (bs : bytes) : String.length (Hmac.hex bs) = (2 * length bs)%nat.
Proof. induction bs as [|b bs IH]; simpl; [reflexivity|]. rewrite IH. lia. Qed.

Lemma hex_digits (bs : bytes) :
  Forall is_byte bs -> PyStr.all_of Hmac.is_hex_digit (Hmac.hex bs) = true.
Proof.
  induction 1 as [|b bs Hb _ IH]; [reflexivity|].
  unfold is_byte in Hb. cbn [Hmac.hex PyStr.all_of]. rewrite IH, !hex_digit_ok; auto.
  - change 15 with (Z.ones 4). rewrite Z.land_ones by lia.
    apply Z.mod_pos_bound. lia.
  - rewrite Z.shiftr_div_pow2 by lia. change (2 ^ 4) with 16.
    split; [apply Z.div_pos; lia | apply Z.div_lt_upper_bound; lia].
Qed.

(** C8. The signature depends on the secret key and the query string only:
    two runs, in any two states of the world, give the same digest; a run
    leaves the world as it was; and the digest is 64 lower-case hexadecimal
    digits, never an exception. *)
Theorem generate_signature_deterministic
    (self : BinanceAPI) (query_string : string) (w1 w2 : World) :
  fst (_generate_signature self query_string w1)
    = fst (_generate_signature self query_string w2) /\
  snd (_generate_signature self query_string w1) = w1 /\
  exists digest,
    fst (_generate_signature self query_string w1) = Ok digest /\
    String.length digest = 64%nat /\
    PyStr.all_of Hmac.is_hex_digit digest = true.
Proof.
  unfold _generate_signature, ret. cbn [fst snd].
  split; [reflexivity|]. split; [reflexivity|].
  eexists. split; [reflexivity|]. split.
  - rewrite hex_length. unfold Hmac.hmac_sha256. cbv zeta. now rewrite digest_length.
  - apply hex_digits. unfold Hmac.hmac_sha256. cbv zeta. apply digest_bytes.
Qed.

(** ** The request executor *)

Section Executor.
Context `{Host}.
Variable self : BinanceAPI.

Lemma bind_ret {A : Type} (m : M A) (w : World) :
  bind m (fun x => ret x) w = m w.
Proof. unfold bind, ret. destruct (m w) as [[a|e] w']; reflexivity. Qed.

(** One call of [_make_request], step by step. *)
Lemma make_request_run (endpoint : string) (params : option dict) (w : World) :
  _make_request self endpoint params w =
    let r := request_of self endpoint params (clock (ticks w)) in
    match http_get (sent w) r with
    | Raise e => (Raise e, after_request w r)
    | Ok response =>
        if status_code response =? 200 then (json_body response, after_request w r)
        else (Ok JNull,
              after_print
                (after_print (after_request w r)
                   ("Erreur API: " ++ PyStr.of_Z (status_code response)))
                ("Message: " ++ text response))
    end.
Proof.
  unfold _make_request, request_of, bind, time_ms, _generate_signature, ret,
    requests_get, lift, print, after_request, after_print.
  cbn [ticks sent stdout].
  destruct (http_get _ _) as [response|e]; [|reflexivity].
  destruct (status_code response =? 200); reflexivity.
Qed.

Lemma make_request_sent (endpoint : string) (params : option dict) (w : World) :
  sent (snd (_make_request self endpoint params w))
    = sent w ++ [request_of self endpoint params (clock (ticks w))].
Proof.
  rewrite make_request_run. cbv zeta.
  destruct (http_get _ _) as [response|e]; [|reflexivity].
  destruct (status_code response =? 200); reflexivity.
Qed.

Lemma dict_get_set_same (d : dict) (k : string) (v : json) :
  dict_get k (dict_set d k v) = Some v.
Proof.
  induction d as [|[k' v'] d IH]; simpl.
  - now rewrite String.eqb_refl.
  - destruct (String.eqb k' k) eqn:Hk; simpl; now rewrite Hk.
Qed.

Lemma dict_get_set_other (d : dict) (k k' : string) (v : json) :
  k <> k' -> dict_get k' (dict_set d k v) = dict_get k' d.
Proof.
  intros Hne. induction d as [|[k0 v0] d IH]; simpl.
  - apply String.eqb_neq in Hne. now rewrite Hne.
  - destruct (String.eqb k0 k) eqn:Hk; simpl.
    + apply String.eqb_eq in Hk as ->.
      apply String.eqb_neq in Hne. now rewrite Hne.
    + now rewrite IH.
Qed.

Lemma dict_set_fresh (d : dict) (k : string) (v : json) :
  dict_get k d = None -> dict_set d k v = d ++ [(k, v)].
Proof.
  induction d as [|[k' v'] d IH]; simpl; [reflexivity|].
  destruct (String.eqb k' k); [discriminate|]. intros Hd. now rewrite IH.
Qed.

(** C3. Every call hands exactly one request to the transport.  Its
    parameters are the caller's with [timestamp] set to the clock reading
    and then [signature] set, and the signature is the digest of the
    URL-encoding of the parameters as they are before [signature] is set,
    in their order, [timestamp] included.  When the caller's parameters
    have no [signature] entry of their own - none of the four callers
    passes one - the encoded parameters have no [signature] either, and
    the signature is appended after them as one more, last, parameter. *)
Theorem make_request_signs (endpoint : string) (params : option dict) (w : World) :
  let p := match params with None => [] | Some p => p end in
  let t := clock (ticks w) in
  let with_timestamp := dict_set p "timestamp" (JInt t) in
  let signature :=
    Hmac.hex (Hmac.hmac_sha256 (encode_utf8 (secret_key self))
                               (encode_utf8 (Url.urlencode with_timestamp))) in
  dict_get "timestamp" with_timestamp = Some (JInt t) /\
  sent (snd (_make_request self endpoint params w)) =
    sent w ++ [{| req_url := (base_url self ++ endpoint)%string;
                  req_params := dict_set with_timestamp "signature" (JStr signature);
                  req_headers := [("X-MBX-APIKEY", api_key self)] |}] /\
  (dict_get "signature" p = None ->
   dict_get "signature" with_timestamp = None /\
   dict_set with_timestamp "signature" (JStr signature)
     = with_timestamp ++ [("signature", JStr signature)]) /\
  (forall symbol limit,
      dict_get "signature" [("limit", JInt limit)] = None /\
      dict_get "signature" (dict_set [("limit", JInt limit)] "symbol" symbol) = None).
Proof.
  intros p t with_timestamp signature.
  split; [apply dict_get_set_same|]. split; [|split].
  - apply make_request_sent.
  - intros Hp.
    assert (dict_get "signature" with_timestamp = None) as Hts.
    { unfold with_timestamp. rewrite dict_get_set_other; [exact Hp | discriminate]. }
    split; [exact Hts | now apply dict_set_fresh].
  - intros symbol limit. split; reflexivity.
Qed.

(** C4. A reply whose status is not 200 makes [_make_request] print the
    status and the body text and return [None]; the reply is not an
    exception, and only the one request was sent.  A reply with status
    200 makes it return what [response.json()] gives and print nothing. *)
Theorem make_request_status
    (endpoint : string) (params : option dict) (w : World) (response : Response) :
  let r := request_of self endpoint params (clock (ticks w)) in
  http_get (sent w) r = Ok response ->
  (status_code response <> 200 ->
   _make_request self endpoint params w =
     (Ok JNull,
      {| ticks := S (ticks w);
         sent := sent w ++ [r];
         stdout := stdout w ++ [("Erreur API: " ++ PyStr.of_Z (status_code response))%string;
                                ("Message: " ++ text response)%string] |})) /\
  (status_code response = 200 ->
   _make_request self endpoint params w =
     (json_body response,
      {| ticks := S (ticks w); sent := sent w ++ [r]; stdout := stdout w |})).
Proof.
  intros r Hr. subst r. rewrite make_request_run. cbv zeta. rewrite Hr.
  split; intros Hs.
  - apply Z.eqb_neq in Hs. rewrite Hs.
    unfold after_print, after_request. cbn [ticks sent stdout].
    now rewrite <- app_assoc.
  - apply Z.eqb_eq in Hs. now rewrite Hs.
Qed.

(** C9. With a falsy [symbol] - [None], the empty string, zero, an empty
    list - [get_all_orders] and [get_last_trade] pass the request executor
    a mapping that holds [limit] alone, and the request that goes out has
    the parameters [limit], [timestamp] and [signature], no [symbol]. *)
Theorem falsy_symbol_omitted (symbol : json) (limit : Z) (w : World) :
  py_truthy symbol = false ->
  (get_all_orders self symbol limit w
     = _make_request self "/api/v3/allOrders" (Some [("limit", JInt limit)]) w /\
   get_last_trade self symbol limit w
     = _make_request self "/api/v3/myTrades" (Some [("limit", JInt limit)]) w) /\
  (exists r1 r2,
      sent (snd (get_all_orders self symbol limit w)) = sent w ++ [r1] /\
      sent (snd (get_last_trade self symbol limit w)) = sent w ++ [r2] /\
      dict_keys (req_params r1) = ["limit"; "timestamp"; "signature"] /\
      dict_keys (req_params r2) = ["limit"; "timestamp"; "signature"] /\
      dict_get "symbol" (req_params r1) = None /\
      dict_get "symbol" (req_params r2) = None).
Proof.
  intros Hs.
  assert (get_all_orders self symbol limit w
          = _make_request self "/api/v3/allOrders" (Some [("limit", JInt limit)]) w) as Ha.
  { unfold get_all_orders. rewrite Hs. apply bind_ret. }
  assert (get_last_trade self symbol limit w
          = _make_request self "/api/v3/myTrades" (Some [("limit", JInt limit)]) w) as Ht.
  { unfold get_last_trade. rewrite Hs. apply bind_ret. }
  split; [split; assumption|].
  rewrite Ha, Ht, !make_request_sent.
  eexists _, _. split; [reflexivity|]. split; [reflexivity|].
  repeat split; reflexivity.
Qed.

End Executor.

(** ** The scan *)

Section Scanner.
Context `{Host}.
Variable self : BinanceAPI.

(** One turn of the loop never raises: it adds what the fetch is worth. *)
Lemma scan_symbol_run (all_filled_orders : list json) (symbol : string) (w : World) :
  scan_symbol self all_filled_orders symbol w =
    (Ok (all_filled_orders ++ fills_of (fst (get_all_orders self (JStr symbol) 20 w))),
     snd (get_all_orders self (JStr symbol) 20 w)).
Proof.
  unfold scan_symbol, try_except, bind at 1.
  destruct (get_all_orders self (JStr symbol) 20 w) as [[orders|e] w'];
    cbn [fst snd fills_of]; [|now rewrite app_nil_r].
  destruct (py_truthy orders); [|unfold ret; now rewrite app_nil_r].
  unfold bind, lift, ret.
  destruct (filled_orders orders); [reflexivity | now rewrite app_nil_r].
Qed.

Lemma scan_ok (symbols : list string) (all_filled_orders : list json) (w : World) :
  exists more w',
    scan self all_filled_orders symbols w = (Ok (all_filled_orders ++ more), w').
Proof.
  revert all_filled_orders w.
  induction symbols as [|symbol rest IH]; intros acc w; cbn [scan].
  - exists [], w. unfold ret. now rewrite app_nil_r.
  - unfold bind. rewrite scan_symbol_run.
    destruct (IH (acc ++ fills_of (fst (get_all_orders self (JStr symbol) 20 w)))
                 (snd (get_all_orders self (JStr symbol) 20 w))) as (more & w' & ->).
    eexists _, w'. now rewrite <- app_assoc.
Qed.

(** C6. The scan never raises, and what it returns starts with the orders
    it had accumulated.  When the fetch for one symbol fails - the request
    raises, or the reply cannot be filtered - that turn of the loop
    returns the accumulated orders as they were, and the scan goes on with
    the remaining symbols exactly as if it had started from there. *)
Theorem scan_swallows_errors
    (all_filled_orders : list json) (symbol : string) (rest : list string) (w : World) :
  (forall symbols, exists more w',
      scan self all_filled_orders symbols w = (Ok (all_filled_orders ++ more), w')) /\
  (forall e w',
      get_all_orders self (JStr symbol) 20 w = (Raise e, w') \/
      (exists orders,
          get_all_orders self (JStr symbol) 20 w = (Ok orders, w') /\
          py_truthy orders = true /\ filled_orders orders = Raise e) ->
      scan_symbol self all_filled_orders symbol w = (Ok all_filled_orders, w') /\
      scan self all_filled_orders (symbol :: rest) w = scan self all_filled_orders rest w').
Proof.
  split; [intros symbols; apply scan_ok|].
  intros e w' Hfail.
  assert (scan_symbol self all_filled_orders symbol w = (Ok all_filled_orders, w')) as Hs.
  { rewrite scan_symbol_run.
    destruct Hfail as [->|(orders & -> & Ht & Hf)]; cbn [fst snd fills_of].
    - now rewrite app_nil_r.
    - rewrite Ht, Hf. now rewrite app_nil_r. }
  split; [exact Hs|]. cbn [scan]. unfold bind at 1. now rewrite Hs.
Qed.

(** C5. When the account request comes back with [None] (or with any
    other falsy value), [get_recent_filled_orders] returns the empty list,
    not an exception, and the world is as the account request left it:
    that one request was sent and no other. *)
Theorem no_account_no_scan (limit : Z) (w w' : World) (account_info : json) :
  get_account_info self w = (Ok account_info, w') ->
  py_truthy account_info = false ->
  get_recent_filled_orders self limit w = (Ok [], w') /\
  sent w' = sent w ++ [account_request self (clock (ticks w))].
Proof.
  intros Ha Hf. split.
  - unfold get_recent_filled_orders, bind at 1. rewrite Ha, Hf. reflexivity.
  - unfold get_account_info in Ha.
    pose proof (make_request_sent self "/api/v3/account" None w) as Hs.
    rewrite Ha in Hs. exact Hs.
Qed.

End Scanner.

Lemma scan_swallows_errors_witness :
  scan (H:=Fixture.offline) Fixture.client [] ["BTCUSDT"; "ETHUSDT"] Fixture.start
  = scan (H:=Fixture.offline) Fixture.client [] ["ETHUSDT"]
      (snd (get_all_orders (H:=Fixture.offline) Fixture.client (JStr "BTCUSDT") 20
              Fixture.start)).
Proof.
  apply (proj2 (scan_swallows_errors (H:=Fixture.offline) Fixture.client []
                  "BTCUSDT" ["ETHUSDT"] Fixture.start) RequestException).
  left. vm_compute. reflexivity.
Defined.

Lemma no_account_no_scan_witness :
  get_recent_filled_orders (H:=Fixture.banned) Fixture.client 3 Fixture.start
  = (Ok [], snd (get_account_info (H:=Fixture.banned) Fixture.client Fixture.start)).
Proof.
  apply (no_account_no_scan (H:=Fixture.banned) Fixture.client 3 Fixture.start _ JNull).
  - vm_compute. reflexivity.
  - reflexivity.
Defined.

(** ** The candidate symbols *)

Lemma omap_inv {A B : Type} (f : A -> outcome B) (l : list A) (r : list B) :
  omap f l = Ok r -> Forall2 (fun x y => f x = Ok y) l r.
Proof.
  revert r. induction l as [|a l IH]; intros r; simpl.
  - intros [= <-]. constructor.
  - destruct (f a) as [b|e] eqn:Hb; simpl; [|discriminate].
    destruct (omap f l) as [bs|e]; simpl; [|discriminate].
    intros [= <-]. constructor; auto.
Qed.

Lemma omap_total {A B : Type} (f : A -> outcome B) (l : list A) :
  Forall (fun x => is_ok (f x) = true) l -> exists r, omap f l = Ok r.
Proof.
  induction 1 as [|a l Ha _ [r IH]]; simpl.
  - now exists [].
  - destruct (f a) as [b|e]; [|discriminate]. simpl. rewrite IH. simpl. eauto.
Qed.

Section Symbols.
Context `{Host}.

Lemma has_balance_true (balance : json) :
  has_balance balance = Ok true <->
  exists free,
    py_getitem balance "free" = Ok free /\
    (float_gt0 free = Ok true \/
     float_gt0 free = Ok false /\
     exists locked, py_getitem balance "locked" = Ok locked /\ float_gt0 locked = Ok true).
Proof.
  unfold has_balance. split.
  - destruct (py_getitem balance "free") as [free|e]; simpl; [|discriminate].
    destruct (float_gt0 free) as [[|]|e] eqn:Hf; simpl; [| |discriminate].
    + intros _. exists free. auto.
    + destruct (py_getitem balance "locked") as [locked|e]; simpl; [|discriminate].
      intros Hl. exists free. split; [reflexivity|]. right. eauto.
  - intros (free & -> & [Hf|(Hf & locked & Hl & Hg)]); simpl; rewrite Hf; simpl.
    + reflexivity.
    + now rewrite Hl.
Qed.

Lemma balance_pairs_inv (balance : json) (l : list string) :
  balance_pairs balance = Ok l ->
  (has_balance balance = Ok true /\
   exists asset, py_getitem balance "asset" = Ok asset /\ l = common_pairs (py_str asset)) \/
  (has_balance balance = Ok false /\ l = []).
Proof.
  unfold balance_pairs.
  destruct (has_balance balance) as [[|]|e]; simpl; [| |discriminate].
  - destruct (py_getitem balance "asset") as [asset|e]; simpl; [|discriminate].
    intros [= <-]. left. eauto.
  - intros [= <-]. now right.
Qed.

Lemma balance_pairs_elem (items : list json) (pairs : list (list string)) (x : string) :
  Forall2 (fun b l => balance_pairs b = Ok l) items pairs ->
  x ∈ concat pairs <->
  exists balance asset,
    balance ∈ items /\ has_balance balance = Ok true /\
    py_getitem balance "asset" = Ok asset /\ x ∈ common_pairs (py_str asset).
Proof.
  induction 1 as [|b l items pairs Hb _ IH]; simpl.
  - split.
    + intros Hx. inversion Hx.
    + intros (b & a & Hin & _). inversion Hin.
  - rewrite elem_of_app, IH. split.
    + intros [Hx|(b' & a & Hin & Hrest)].
      * destruct (balance_pairs_inv _ _ Hb) as [(Ht & a & Ha & ->)|(_ & ->)].
        -- exists b, a. repeat split; auto. left.
        -- inversion Hx.
      * exists b', a. split; [now right | exact Hrest].
    + intros (b' & a & Hin & Ht & Ha & Hx).
      apply elem_of_cons in Hin as [->|Hin].
      * left. destruct (balance_pairs_inv _ _ Hb) as [(_ & a' & Ha' & ->)|(Hf & _)].
        -- rewrite Ha in Ha'. now injection Ha' as <-.
        -- rewrite Ht in Hf. discriminate.
      * right. exists b', a. auto.
Qed.

Lemma symbols_with_balance_run (account_info : json) (items : list json)
    (pairs : list (list string)) :
  obind (py_getitem account_info "balances") py_iter = Ok items ->
  omap balance_pairs items = Ok pairs ->
  symbols_with_balance account_info = Ok (concat pairs ++ popular_symbols).
Proof.
  unfold symbols_with_balance.
  destruct (py_getitem account_info "balances") as [balances|e]; simpl; [|discriminate].
  intros -> . simpl. intros ->. reflexivity.
Qed.

(** C2. For an account whose balances can all be read, the candidate
    symbols are duplicate-free, and a symbol is among them exactly when it
    is one of the five popular symbols or one of the five pairs
    [asset+USDT], [asset+BTC], [asset+ETH], [BTC+asset], [ETH+asset] of a
    balance with [free > 0] or [locked > 0].  So with positive free
    balances of BTC and ETH the list holds BTCUSDT, ETHUSDT, BTCETH, ETHBTC
    and the five popular symbols. *)
Theorem candidate_symbols_spec (account_info : json) (items : list json) :
  set_semantics H ->
  obind (py_getitem account_info "balances") py_iter = Ok items ->
  Forall (fun balance => is_ok (balance_pairs balance) = true) items ->
  exists symbols,
    candidate_symbols account_info = Ok symbols /\
    NoDup symbols /\
    (forall x,
        x ∈ symbols <->
        x ∈ ["BTCUSDT"; "ETHUSDT"; "BNBUSDT"; "ADAUSDT"; "SOLUSDT"] \/
        exists balance asset_value,
          balance ∈ items /\
          has_balance balance = Ok true /\
          py_getitem balance "asset" = Ok asset_value /\
          let asset := py_str asset_value in
          x ∈ [asset ++ "USDT"; asset ++ "BTC"; asset ++ "ETH";
               "BTC" ++ asset; "ETH" ++ asset]%string) /\
    (forall balance,
        has_balance balance = Ok true <->
        exists free,
          py_getitem balance "free" = Ok free /\
          (float_gt0 free = Ok true \/
           float_gt0 free = Ok false /\
           exists locked,
             py_getitem balance "locked" = Ok locked /\ float_gt0 locked = Ok true)) /\
    (forall btc eth free_btc free_eth,
        btc ∈ items -> eth ∈ items ->
        py_getitem btc "asset" = Ok (JStr "BTC") ->
        py_getitem eth "asset" = Ok (JStr "ETH") ->
        py_getitem btc "free" = Ok free_btc -> float_gt0 free_btc = Ok true ->
        py_getitem eth "free" = Ok free_eth -> float_gt0 free_eth = Ok true ->
        Forall (fun x => x ∈ symbols)
               ["BTCUSDT"; "ETHUSDT"; "BTCETH"; "ETHBTC";
                "BTCUSDT"; "ETHUSDT"; "BNBUSDT"; "ADAUSDT"; "SOLUSDT"]).
Proof.
  intros Hset Hitems Hok.
  destruct (omap_total _ _ Hok) as [pairs Hpairs].
  pose proof (symbols_with_balance_run _ _ _ Hitems Hpairs) as Hrun.
  destruct (Hset (concat pairs ++ popular_symbols)) as [Hnodup Helem].
  assert (forall x,
        x ∈ list_of_set (concat pairs ++ popular_symbols) <->
        x ∈ popular_symbols \/
        exists balance asset_value,
          balance ∈ items /\
          has_balance balance = Ok true /\
          py_getitem balance "asset" = Ok asset_value /\
          x ∈ common_pairs (py_str asset_value)) as Hchar.
  { intros x. rewrite Helem, elem_of_app.
    rewrite (balance_pairs_elem _ _ x (omap_inv _ _ _ Hpairs)). tauto. }
  exists (list_of_set (concat pairs ++ popular_symbols)).
  split; [unfold candidate_symbols; now rewrite Hrun|].
  split; [exact Hnodup|]. split; [exact Hchar|]. split; [apply has_balance_true|].
  intros btc eth free_btc free_eth Hb He Hab Hae Hfb Hgb Hfe Hge.
  assert (has_balance btc = Ok true) as Htb by (apply has_balance_true; eauto).
  assert (has_balance eth = Ok true) as Hte by (apply has_balance_true; eauto).
  assert (forall x, x ∈ common_pairs "BTC" -> x ∈ list_of_set (concat pairs ++ popular_symbols))
    as Hbtc.
  { intros x Hx. apply Hchar. right. exists btc, (JStr "BTC"). auto. }
  assert (forall x, x ∈ common_pairs "ETH" -> x ∈ list_of_set (concat pairs ++ popular_symbols))
    as Heth.
  { intros x Hx. apply Hchar. right. exists eth, (JStr "ETH"). auto. }
  assert (forall x, x ∈ popular_symbols -> x ∈ list_of_set (concat pairs ++ popular_symbols))
    as Hpop.
  { intros x Hx. apply Hchar. now left. }
  repeat (apply Forall_cons_2); try apply Forall_nil_2;
    first [ apply Hpop; vm_compute; solve [repeat constructor]
          | apply Hbtc; vm_compute; solve [repeat constructor]
          | apply Heth; vm_compute; solve [repeat constructor] ].
Qed.

End Symbols.

(** ** The most recent fills *)

Section FlatMap.
Context {A B : Type} (f : A -> list B).

Lemma flat_map_none (l : list A) :
  (forall x, x ∈ l -> f x = []) -> flat_map f l = [].
Proof.
  induction l as [|x l IH]; intros Hf; simpl; [reflexivity|].
  rewrite (Hf x) by left. rewrite IH; [reflexivity|].
  intros y Hy. apply Hf. now right.
Qed.

Lemma flat_map_one (a : A) (l : list A) :
  NoDup l -> a ∈ l -> (forall x, x ∈ l -> x <> a -> f x = []) ->
  flat_map f l = f a.
Proof.
  induction 1 as [|x l Hx Hnd IH]; intros Ha Hf; [inversion Ha|]. simpl.
  apply elem_of_cons in Ha as [<-|Ha].
  - rewrite flat_map_none; [apply app_nil_r|].
    intros y Hy. apply Hf; [now right|]. intros ->. contradiction.
  - rewrite (Hf x); [|left|intros ->; contradiction]. simpl.
    apply IH; [exact Ha|]. intros y Hy. apply Hf. now right.
Qed.

Lemma flat_map_two (a b : A) (l : list A) :
  NoDup l -> a ∈ l -> b ∈ l -> a <> b ->
  (forall x, x ∈ l -> x <> a -> x <> b -> f x = []) ->
  flat_map f l = f a ++ f b \/ flat_map f l = f b ++ f a.
Proof.
  induction 1 as [|x l Hx Hnd IH]; intros Ha Hb Hab Hf; [inversion Ha|]. simpl.
  apply elem_of_cons in Ha as [<-|Ha].
  - left. f_equal. apply elem_of_cons in Hb as [->|Hb]; [contradiction|].
    apply flat_map_one; auto.
    intros y Hy Hyb. apply Hf; [now right| |exact Hyb]. intros ->. contradiction.
  - apply elem_of_cons in Hb as [<-|Hb].
    + right. f_equal. apply flat_map_one; auto.
      intros y Hy Hya. apply Hf; [now right|exact Hya|]. intros ->. contradiction.
    + rewrite (Hf x); [|left|intros ->; contradiction|intros ->; contradiction].
      simpl. apply IH; auto. intros y Hy. apply Hf. now right.
Qed.

End FlatMap.

Section RecentFills.
Context `{Host}.
Variable self : BinanceAPI.

Lemma filled_orders_truthy (orders x : json) (l : list json) :
  filled_orders orders = Ok (x :: l) -> py_truthy orders = true.
Proof.
  unfold filled_orders.
  destruct orders as [| | |s|items|d]; simpl; try discriminate.
  - destruct s; simpl; [discriminate | reflexivity].
  - destruct items; simpl; [discriminate | reflexivity].
  - destruct d; simpl; [discriminate | reflexivity].
Qed.

Lemma orders_request_is (symbol : string) (t : Z) :
  is_orders_request self (orders_request self symbol t) symbol.
Proof.
  split; [reflexivity|].
  unfold orders_request, request_of. cbn [req_params].
  rewrite !dict_get_set_other by discriminate. reflexivity.
Qed.

Lemma get_all_orders_fst (symbol : string) (w : World) :
  symbol <> EmptyString ->
  fst (get_all_orders self (JStr symbol) 20 w)
    = result_of_reply (http_get (sent w) (orders_request self symbol (clock (ticks w)))).
Proof.
  intros Hs. unfold get_all_orders. cbn [py_truthy].
  apply truthy_nonempty in Hs. rewrite Hs, bind_ret, make_request_run. cbv zeta.
  change (dict_set [("limit", JInt 20)] "symbol" (JStr symbol))
    with [("limit", JInt 20); ("symbol", JStr symbol)].
  fold (orders_request self symbol (clock (ticks w))).
  unfold result_of_reply.
  destruct (http_get _ _) as [response|e]; [|reflexivity].
  destruct (status_code response =? 200); reflexivity.
Qed.

Lemma get_account_info_run (w : World) (account_info : json) :
  answers (http_get (sent w) (account_request self (clock (ticks w)))) account_info ->
  get_account_info self w
    = (Ok account_info, after_request w (account_request self (clock (ticks w)))).
Proof.
  unfold get_account_info, answers. rewrite make_request_run. cbv zeta.
  fold (account_request self (clock (ticks w))).
  destruct (http_get _ _) as [response|e]; [|contradiction].
  intros [-> ->]. reflexivity.
Qed.

Lemma candidate_symbols_inv (account_info : json) (symbols : list string) :
  candidate_symbols account_info = Ok symbols ->
  exists pairs,
    symbols = list_of_set (concat pairs ++ popular_symbols) /\
    Forall (fun l => l = [] \/ exists asset, l = common_pairs asset) pairs.
Proof.
  unfold candidate_symbols, symbols_with_balance.
  destruct (py_getitem account_info "balances") as [balances|e]; simpl; [|discriminate].
  destruct (py_iter balances) as [items|e]; simpl; [|discriminate].
  destruct (omap balance_pairs items) as [pairs|e] eqn:Hp; simpl; [|discriminate].
  intros [= <-]. exists pairs. split; [reflexivity|].
  apply omap_inv in Hp. induction Hp as [|b l items pairs Hb _ IH]; constructor; auto.
  destruct (balance_pairs_inv _ _ Hb) as [(_ & a & _ & ->)|(_ & ->)]; eauto.
Qed.

Lemma candidate_symbols_nonempty (account_info : json) (symbols : list string) :
  set_semantics H ->
  candidate_symbols account_info = Ok symbols ->
  Forall (fun s => s <> EmptyString) symbols /\
  NoDup symbols /\
  forall s, s ∈ popular_symbols -> s ∈ symbols.
Proof.
  intros Hset Hc. destruct (candidate_symbols_inv _ _ Hc) as (pairs & -> & Hp).
  destruct (Hset (concat pairs ++ popular_symbols)) as [Hnd Hel].
  split; [|split; [exact Hnd|]].
  - apply Forall_forall. intros s Hs. apply Hel, elem_of_app in Hs as [Hs|Hs].
    + apply list_elem_of_In, in_concat in Hs as (l & Hl & Hs).
      rewrite Forall_forall in Hp. apply list_elem_of_In in Hl.
      destruct (Hp l Hl) as [->|[a ->]]; [inversion Hs|].
      unfold common_pairs in Hs. destruct a; simpl in Hs;
        intuition (subst; discriminate).
    + unfold popular_symbols in Hs.
      repeat (apply elem_of_cons in Hs as [->|Hs]; [discriminate|]). inversion Hs.
  - intros s Hs. apply Hel, elem_of_app. now right.
Qed.

Section Fixture.
Variables (account_info btc_orders eth_orders o100 o200 o300 : json).
Variable symbols : list string.
Hypothesis sets : set_semantics H.
Hypothesis account_reply : forall history r,
    is_account_request self r -> answers (http_get history r) account_info.
Hypothesis account_truthy : py_truthy account_info = true.
Hypothesis account_symbols : candidate_symbols account_info = Ok symbols.
Hypothesis few_symbols : (length symbols <= 15)%nat.
Hypothesis btc_reply : forall history r,
    is_orders_request self r "BTCUSDT" -> answers (http_get history r) btc_orders.
Hypothesis eth_reply : forall history r,
    is_orders_request self r "ETHUSDT" -> answers (http_get history r) eth_orders.
Hypothesis btc_filled : filled_orders btc_orders = Ok [o100; o300].
Hypothesis eth_filled : filled_orders eth_orders = Ok [o200].
Hypothesis other_reply : forall history r symbol,
    is_orders_request self r symbol ->
    symbol <> "BTCUSDT" -> symbol <> "ETHUSDT" ->
    reply_fills (http_get history r) = [].
Hypothesis time_100 : py_getitem o100 "time" = Ok (JInt 100).
Hypothesis time_200 : py_getitem o200 "time" = Ok (JInt 200).
Hypothesis time_300 : py_getitem o300 "time" = Ok (JInt 300).

Local Abbreviation worth := (fixture_worth o100 o200 o300).

Lemma answers_fills (reply : outcome Response) (orders : json) (x : json) (l : list json) :
  answers reply orders -> filled_orders orders = Ok (x :: l) ->
  reply_fills reply = x :: l.
Proof.
  unfold answers, reply_fills, result_of_reply.
  destruct reply as [response|e]; [|contradiction].
  intros [-> ->] Hf. simpl. now rewrite (filled_orders_truthy _ _ _ Hf), Hf.
Qed.

Lemma fetch_worth (symbol : string) (w : World) :
  symbol <> EmptyString ->
  fills_of (fst (get_all_orders self (JStr symbol) 20 w)) = worth symbol.
Proof.
  intros Hs. rewrite (get_all_orders_fst _ _ Hs).
  fold (reply_fills (http_get (sent w) (orders_request self symbol (clock (ticks w))))).
  pose proof (orders_request_is symbol (clock (ticks w))) as Hr.
  unfold fixture_worth.
  destruct (String.eqb symbol "BTCUSDT") eqn:Hb.
  { apply String.eqb_eq in Hb as ->.
    apply (answers_fills _ btc_orders); [now apply btc_reply | exact btc_filled]. }
  destruct (String.eqb symbol "ETHUSDT") eqn:He.
  { apply String.eqb_eq in He as ->.
    apply (answers_fills _ eth_orders); [now apply eth_reply | exact eth_filled]. }
  apply String.eqb_neq in Hb, He. now apply (other_reply _ _ symbol).
Qed.

Lemma scan_worth (l : list string) (all_filled_orders : list json) (w : World) :
  Forall (fun s => s <> EmptyString) l ->
  fst (scan self all_filled_orders l w) = Ok (all_filled_orders ++ flat_map worth l).
Proof.
  intros Hl. revert all_filled_orders w.
  induction Hl as [|s l Hs _ IH]; intros acc w; cbn [scan flat_map].
  - unfold ret. cbn. now rewrite app_nil_r.
  - unfold bind. rewrite scan_symbol_run, IH, (fetch_worth _ _ Hs).
    now rewrite <- app_assoc.
Qed.

Lemma sorted_fills (all_filled_orders : list json) :
  all_filled_orders = [o100; o300] ++ [o200] \/
  all_filled_orders = [o200] ++ [o100; o300] ->
  sort_by_time_reverse all_filled_orders = Ok [o300; o200; o100].
Proof.
  intros [->| ->]; unfold sort_by_time_reverse; simpl;
    rewrite time_100, time_200, time_300; reflexivity.
Qed.

(** C1. In a fixture where the account is available and yields at most
    15 candidate symbols, BTCUSDT has the FILLED orders of times 100 and
    300, ETHUSDT the FILLED order of time 200, and no other symbol has a
    FILLED order, the scan with [limit=3] returns the three orders with
    the most recent first, and with [limit=2] the first two of them,
    whatever the order in which the set of symbols is enumerated and
    whatever the state of the world at the start. *)
Theorem recent_fills_fixture (w : World) :
  fst (get_recent_filled_orders self 3 w) = Ok [o300; o200; o100] /\
  fst (get_recent_filled_orders self 2 w) = Ok [o300; o200].
Proof.
  destruct (candidate_symbols_nonempty _ _ sets account_symbols)
    as (Hne & Hnd & Hpop).
  assert (forall limit,
             fst (get_recent_filled_orders self limit w)
             = Ok (py_slice_to limit [o300; o200; o100])) as Hrun.
  { intros limit. unfold get_recent_filled_orders, bind at 1.
    rewrite (get_account_info_run w account_info)
      by (apply account_reply; reflexivity).
    rewrite account_truthy. cbn [negb]. unfold bind at 1, lift at 1.
    rewrite account_symbols, firstn_all2 by exact few_symbols.
    unfold bind at 1.
    pose proof (scan_worth symbols []
                  (after_request w (account_request self (clock (ticks w)))) Hne) as Hs.
    destruct (scan self [] symbols _) as [[filled|e] w'];
      cbn [fst] in Hs; [|discriminate].
    injection Hs as ->. cbn [app].
    assert (flat_map worth symbols = [o100; o300] ++ [o200] \/
            flat_map worth symbols = [o200] ++ [o100; o300]) as Hw.
    { apply (flat_map_two worth "BTCUSDT" "ETHUSDT").
      - exact Hnd.
      - apply Hpop. repeat constructor.
      - apply Hpop. repeat constructor.
      - discriminate.
      - intros x _ Hb He. unfold fixture_worth.
        apply String.eqb_neq in Hb, He. now rewrite Hb, He. }
    pose proof (sorted_fills _ Hw) as Hsort.
    destruct (flat_map worth symbols) as [|o rest];
      [destruct Hw; discriminate|].
    unfold bind, lift, ret. now rewrite Hsort. }
  split; apply Hrun.
Qed.

End Fixture.

End RecentFills.

(** ** The theorems at work on the example exchange *)

Lemma fixture_set_semantics : set_semantics Fixture.host.
Proof.
  intros l. split; [apply NoDup_remove_dups | intros x; apply elem_of_remove_dups].
Qed.

Lemma load_env_file_spec_witness :
  env_line ∅ "  KEY = 'v'  " = Ok (<["KEY" := "v"]> ∅) /\
  env_line (<["KEY" := "v"]> ∅) "# KEY=w" = Ok (<["KEY" := "v"]> ∅).
Proof.
  split.
  - exact (proj1 (proj2 (proj2 (proj2 (proj2 load_env_file_spec))))
             ∅ "  KEY = 'v'  " "KEY " " 'v'" eq_refl eq_refl eq_refl).
  - apply (proj1 (proj2 (proj2 (proj2 load_env_file_spec)))).
    right. left. reflexivity.
Defined.

Lemma make_request_signs_witness :
  let p := [("limit", JInt 20); ("timestamp", JInt 1700000000000)] in
  let signature :=
    Hmac.hex (Hmac.hmac_sha256 (encode_utf8 "my-secret-key")
                               (encode_utf8 "limit=20&timestamp=1700000000000")) in
  dict_get "signature" p = None /\
  dict_set p "signature" (JStr signature) = p ++ [("signature", JStr signature)].
Proof.
  apply (proj1 (proj2 (proj2
           (make_request_signs (H:=Fixture.host) Fixture.client "/api/v3/allOrders"
              (Some [("limit", JInt 20)]) Fixture.start)))).
  reflexivity.
Defined.

Lemma make_request_status_witness :
  _make_request (H:=Fixture.banned) Fixture.client "/api/v3/account" None Fixture.start
  = (Ok JNull,
     {| ticks := 1;
        sent := [account_request (H:=Fixture.banned) Fixture.client 1700000000000];
        stdout := ["Erreur API: 418"; "Message: banned"] |}).
Proof.
  apply (proj1 (make_request_status (H:=Fixture.banned) Fixture.client
                  "/api/v3/account" None Fixture.start
                  {| status_code := 418; text := "banned";
                     json_body := Raise JSONDecodeError |} eq_refl)).
  discriminate.
Defined.

Lemma falsy_symbol_omitted_witness :
  get_all_orders (H:=Fixture.host) Fixture.client JNull 10 Fixture.start
  = _make_request (H:=Fixture.host) Fixture.client "/api/v3/allOrders"
      (Some [("limit", JInt 10)]) Fixture.start.
Proof.
  apply (falsy_symbol_omitted (H:=Fixture.host) Fixture.client JNull 10 Fixture.start).
  reflexivity.
Defined.

Lemma candidate_symbols_spec_witness :
  exists symbols,
    candidate_symbols (H:=Fixture.host) Fixture.account = Ok symbols /\
    NoDup symbols /\
    Forall (fun x => x ∈ symbols) ["BTCUSDT"; "ETHUSDT"; "BTCETH"; "ETHBTC"; "SOLUSDT"].
Proof.
  destruct (candidate_symbols_spec (H:=Fixture.host) Fixture.account
              [Fixture.balance "BTC" "0.50000000" "0.00000000";
               Fixture.balance "ETH" "1.25000000" "0.00000000";
               Fixture.balance "LTC" "0.00000000" "0.00000000"])
    as (symbols & Hc & Hnd & _ & _ & Hin).
  - exact fixture_set_semantics.
  - reflexivity.
  - repeat constructor.
  - exists symbols. split; [exact Hc|]. split; [exact Hnd|].
    pose proof (Hin (Fixture.balance "BTC" "0.50000000" "0.00000000")
                    (Fixture.balance "ETH" "1.25000000" "0.00000000")
                    (JStr "0.50000000") (JStr "1.25000000")
                    ltac:(repeat constructor) ltac:(repeat constructor)
                    eq_refl eq_refl eq_refl eq_refl eq_refl eq_refl) as Hall.
    rewrite Forall_forall in Hall. apply Forall_forall. intros x Hx. apply Hall.
    repeat (apply elem_of_cons in Hx as [->|Hx]; [solve [repeat constructor]|]).
    inversion Hx.
Defined.

Lemma recent_fills_fixture_witness :
  fst (get_recent_filled_orders (H:=Fixture.host) Fixture.client 3 Fixture.start)
  = Ok [Fixture.order "BTCUSDT" 3 "FILLED" 300;
        Fixture.order "ETHUSDT" 7 "FILLED" 200;
        Fixture.order "BTCUSDT" 1 "FILLED" 100] /\
  fst (get_recent_filled_orders (H:=Fixture.host) Fixture.client 2 Fixture.start)
  = Ok [Fixture.order "BTCUSDT" 3 "FILLED" 300;
        Fixture.order "ETHUSDT" 7 "FILLED" 200].
Proof.
  apply (recent_fills_fixture (H:=Fixture.host) Fixture.client
           Fixture.account Fixture.btc_orders Fixture.eth_orders
           (Fixture.order "BTCUSDT" 1 "FILLED" 100)
           (Fixture.order "ETHUSDT" 7 "FILLED" 200)
           (Fixture.order "BTCUSDT" 3 "FILLED" 300)
           ["BTCBTC"; "ETHBTC"; "BTCETH"; "ETHETH"; "BTCUSDT"; "ETHUSDT";
            "BNBUSDT"; "ADAUSDT"; "SOLUSDT"]).
  - exact fixture_set_semantics.
  - intros history r Hr. unfold is_account_request in Hr.
    cbn [http_get Fixture.host]. unfold Fixture.exchange. rewrite Hr.
    vm_compute. split; reflexivity.
  - reflexivity.
  - vm_compute. reflexivity.
  - simpl. lia.
  - intros history r [Hu Hs]. cbn [http_get Fixture.host].
    unfold Fixture.exchange. rewrite Hu, Hs. vm_compute. split; reflexivity.
  - intros history r [Hu Hs]. cbn [http_get Fixture.host].
    unfold Fixture.exchange. rewrite Hu, Hs. vm_compute. split; reflexivity.
  - reflexivity.
  - reflexivity.
  - intros history r symbol [Hu Hs] Hb He. cbn [http_get Fixture.host].
    unfold Fixture.exchange. rewrite Hu, Hs.
    apply String.eqb_neq in Hb, He. rewrite Hb, He. vm_compute. reflexivity.
  - reflexivity.
  - reflexivity.
  - reflexivity.
Defined.

(** ** Sorting by time *)

Section InsertionSort.
Context {A : Type}.
Implicit Types (x : Z * A) (l : list (Z * A)).

Lemma insert_desc_perm x l : Permutation (x :: l) (insert_desc Z.ltb x l).
Proof.
  induction l as [|y l IH]; simpl; [reflexivity|].
  destruct (fst x <? fst y); [|reflexivity].
  rewrite perm_swap. now apply perm_skip.
Qed.

Lemma isort_perm l : Permutation l (fold_right (insert_desc Z.ltb) [] l).
Proof.
  induction l as [|x l IH]; simpl; [reflexivity|].
  rewrite <- insert_desc_perm. now apply perm_skip.
Qed.

Lemma insert_desc_hd x y l :
  fst y >= fst x -> HdRel key_ge y l -> HdRel key_ge y (insert_desc Z.ltb x l).
Proof.
  intros Hxy Hl. destruct l as [|z l]; simpl.
  - constructor. exact Hxy.
  - inversion Hl; subst. destruct (fst x <? fst z); constructor; assumption.
Qed.

Lemma insert_desc_sorted x l :
  Sorted key_ge l -> Sorted key_ge (insert_desc Z.ltb x l).
Proof.
  induction 1 as [|y l Hs IH Hhd]; simpl.
  - repeat constructor.
  - destruct (fst x <? fst y) eqn:Hlt.
    + constructor; [exact IH|]. apply insert_desc_hd; [|exact Hhd].
      apply Z.ltb_lt in Hlt. lia.
    + constructor; [now constructor|]. constructor.
      apply Z.ltb_ge in Hlt. unfold key_ge. lia.
Qed.

Lemma isort_sorted l : Sorted key_ge (fold_right (insert_desc Z.ltb) [] l).
Proof.
  induction l as [|x l IH]; simpl; [constructor | now apply insert_desc_sorted].
Qed.

Lemma insert_desc_filter (t : Z) x l :
  List.filter (fun p => fst p =? t) (insert_desc Z.ltb x l)
  = List.filter (fun p => fst p =? t) (x :: l).
Proof.
  induction l as [|y l IH]; [reflexivity|].
  cbn [insert_desc]. destruct (fst x <? fst y) eqn:Hlt; [|reflexivity].
  apply Z.ltb_lt in Hlt. cbn [List.filter] in *. rewrite IH.
  destruct (fst x =? t) eqn:Hx; [|reflexivity].
  apply Z.eqb_eq in Hx. assert ((fst y =? t) = false) as -> by (apply Z.eqb_neq; lia).
  reflexivity.
Qed.

Lemma isort_filter (t : Z) l :
  List.filter (fun p => fst p =? t) (fold_right (insert_desc Z.ltb) [] l)
  = List.filter (fun p => fst p =? t) l.
Proof.
  induction l as [|x l IH]; [reflexivity|].
  cbn [fold_right]. rewrite insert_desc_filter. cbn [List.filter]. now rewrite IH.
Qed.

End InsertionSort.

Section SortByTime.
Variable time_of : json -> Z.

Lemma keyed_combine (l : list json) :
  combine (map time_of l) l = map (fun x => (time_of x, x)) l.
Proof. induction l as [|x l IH]; simpl; congruence. Qed.

Lemma keyed_sorted (ps : list (Z * json)) :
  Forall (fun p => fst p = time_of (snd p)) ps ->
  Sorted key_ge ps ->
  Sorted (fun a b => (time_of a >= time_of b)) (map snd ps).
Proof.
  intros Hk Hs. induction Hs as [|p ps Hs IH Hhd]; simpl; [constructor|].
  apply Forall_cons in Hk as [Hp Hk]. constructor; [now apply IH|].
  destruct Hhd as [|q ps Hpq]; simpl; constructor.
  apply Forall_cons in Hk as [Hq _]. unfold key_ge in Hpq. now rewrite <- Hp, <- Hq.
Qed.

Lemma keyed_filter (t : Z) (ps : list (Z * json)) :
  Forall (fun p => fst p = time_of (snd p)) ps ->
  List.filter (fun x => time_of x =? t) (map snd ps)
  = map snd (List.filter (fun p => fst p =? t) ps).
Proof.
  induction 1 as [|p ps Hp _ IH]; [reflexivity|].
  cbn [map List.filter]. rewrite <- Hp, IH. now destruct (fst p =? t).
Qed.

Lemma time_keys (l : list json) :
  Forall (fun x => py_getitem x "time" = Ok (JInt (time_of x))) l ->
  omap (fun x => py_getitem x "time") l = Ok (map (fun x => JInt (time_of x)) l) /\
  mapM num_key (map (fun x => JInt (time_of x)) l) = Some (map time_of l).
Proof.
  intros Hl. split.
  - induction Hl as [|x l Hx _ IH]; [reflexivity|].
    cbn [omap map]. rewrite Hx. cbn [obind]. rewrite IH. reflexivity.
  - apply mapM_Some_2.
    induction Hl as [|x l _ _ IH]; cbn [map]; constructor; auto.
Qed.

(** X1. Orders whose [time] is an integer are sorted without error: the
    result holds the same orders, the times never increase along it, and
    orders of equal time stay in the order they had. *)
Theorem sort_by_time_reverse_spec (l : list json) :
  Forall (fun x => py_getitem x "time" = Ok (JInt (time_of x))) l ->
  exists r,
    sort_by_time_reverse l = Ok r /\
    Permutation l r /\
    Sorted (fun a b => (time_of a >= time_of b)) r /\
    forall t, List.filter (fun x => time_of x =? t) r
              = List.filter (fun x => time_of x =? t) l.
Proof.
  intros Hl. destruct (time_keys l Hl) as [Hkeys Hnum].
  unfold sort_by_time_reverse. rewrite Hkeys. cbn [obind].
  destruct (length l <=? 1)%nat eqn:Hlen.
  - exists l. split; [reflexivity|]. split; [reflexivity|]. split; [|reflexivity].
    apply Nat.leb_le in Hlen.
    destruct l as [|x [|y l]]; [constructor | repeat constructor | simpl in Hlen; lia].
  - rewrite Hnum. eexists. split; [reflexivity|].
    unfold sort_desc. rewrite keyed_combine.
    set (ps := map (fun x => (time_of x, x)) l).
    assert (map snd ps = l) as Hsnd.
    { unfold ps. rewrite map_map. simpl. apply map_id. }
    assert (Forall (fun p => fst p = time_of (snd p)) ps) as Hps.
    { unfold ps. apply Forall_forall. intros p Hp.
      apply list_elem_of_In, in_map_iff in Hp as (x & <- & _). reflexivity. }
    assert (Forall (fun p => fst p = time_of (snd p))
                   (fold_right (insert_desc Z.ltb) [] ps)) as Hsorted_keys.
    { apply Forall_forall. intros p Hp. rewrite Forall_forall in Hps. apply Hps.
      apply list_elem_of_In. apply list_elem_of_In in Hp.
      eapply Permutation_in; [symmetry; apply isort_perm | exact Hp]. }
    split; [|split].
    + rewrite <- Hsnd at 1. apply Permutation_map, isort_perm.
    + apply keyed_sorted; [exact Hsorted_keys | apply isort_sorted].
    + intros t. rewrite keyed_filter by exact Hsorted_keys.
      rewrite isort_filter, <- keyed_filter by exact Hps. now rewrite Hsnd.
Qed.

End SortByTime.

(** ** Bounds on the scan *)

Section Bounds.
Context `{Host}.
Variable self : BinanceAPI.

Lemma make_request_fst (endpoint : string) (params : option dict) (w : World) :
  fst (_make_request self endpoint params w)
  = result_of_reply (http_get (sent w) (request_of self endpoint params (clock (ticks w)))).
Proof.
  rewrite make_request_run. cbv zeta. unfold result_of_reply.
  destruct (http_get _ _) as [response|e]; [|reflexivity].
  destruct (status_code response =? 200); reflexivity.
Qed.

Lemma get_all_orders_request (symbol : json) (limit : Z) (w : World) :
  exists r,
    req_url r = (base_url self ++ "/api/v3/allOrders")%string /\
    dict_get "limit" (req_params r) = Some (JInt limit) /\
    sent (snd (get_all_orders self symbol limit w)) = sent w ++ [r] /\
    fst (get_all_orders self symbol limit w) = result_of_reply (http_get (sent w) r).
Proof.
  unfold get_all_orders. rewrite bind_ret, make_request_sent, make_request_fst.
  match goal with
  | |- context [request_of self ?e ?p ?t] => exists (request_of self e p t)
  end.
  split; [reflexivity|]. split; [|split; reflexivity].
  unfold request_of. cbn [req_params].
  rewrite !dict_get_set_other by discriminate.
  destruct (py_truthy symbol); [rewrite dict_get_set_other by discriminate|]; reflexivity.
Qed.

Lemma scan_sent (symbols : list string) (all_filled_orders : list json) (w : World) :
  length (sent (snd (scan self all_filled_orders symbols w)))
  = (length (sent w) + length symbols)%nat.
Proof.
  revert all_filled_orders w.
  induction symbols as [|symbol rest IH]; intros acc w; cbn [scan].
  - unfold ret. cbn. lia.
  - unfold bind. rewrite scan_symbol_run, IH.
    destruct (get_all_orders_request (JStr symbol) 20 w) as (r & _ & _ & -> & _).
    rewrite length_app. cbn. lia.
Qed.

Lemma scan_quiet (symbols : list string) (all_filled_orders : list json) (w : World) :
  (forall history r,
      req_url r = (base_url self ++ "/api/v3/allOrders")%string ->
      reply_fills (http_get history r) = []) ->
  fst (scan self all_filled_orders symbols w) = Ok all_filled_orders.
Proof.
  intros Hq. revert all_filled_orders w.
  induction symbols as [|symbol rest IH]; intros acc w; cbn [scan]; [reflexivity|].
  unfold bind. rewrite scan_symbol_run, IH.
  destruct (get_all_orders_request (JStr symbol) 20 w) as (r & Hu & _ & _ & ->).
  fold (reply_fills (http_get (sent w) r)). rewrite (Hq _ _ Hu). now rewrite app_nil_r.
Qed.

(** The shape of every run of [get_recent_filled_orders]. *)
Lemma recent_orders_run (limit : Z) (w : World) :
  let run := get_recent_filled_orders self limit w in
  (length (sent (snd run)) <= length (sent w) + 16)%nat /\
  (forall r, fst run = Ok r ->
             r = [] \/ exists sorted, r = py_slice_to limit sorted).
Proof.
  cbv zeta.
  destruct (get_recent_filled_orders self limit w) as [o w'] eqn:Hrun. cbn [fst snd].
  unfold get_recent_filled_orders, bind at 1 in Hrun.
  pose proof (make_request_sent self "/api/v3/account" None w) as Hs.
  fold (get_account_info self) in Hs.
  destruct (get_account_info self w) as [[account_info|e] w1]; cbn [snd] in Hs.
  2:{ injection Hrun as <- <-. rewrite Hs, length_app. cbn [length].
      split; [lia | intros r Hr; discriminate Hr]. }
  destruct (py_truthy account_info); cbn [negb] in Hrun.
  2:{ injection Hrun as <- <-. rewrite Hs, length_app. cbn [length].
      split; [lia | intros r [= <-]; now left]. }
  unfold bind at 1, lift at 1 in Hrun.
  destruct (candidate_symbols account_info) as [symbols|e].
  2:{ injection Hrun as <- <-. rewrite Hs, length_app. cbn [length].
      split; [lia | intros r Hr; discriminate Hr]. }
  unfold bind at 1 in Hrun.
  pose proof (scan_sent (firstn 15 symbols) [] w1) as Hn.
  destruct (scan self [] (firstn 15 symbols) w1) as [[filled|e] w2]; cbn [snd] in Hn.
  2:{ injection Hrun as <- <-. rewrite Hn, Hs, length_app, length_firstn. cbn [length].
      split; [lia | intros r Hr; discriminate Hr]. }
  assert (length (sent w2) <= length (sent w) + 16)%nat as Hbound.
  { rewrite Hn, Hs, length_app, length_firstn. cbn [length]. lia. }
  destruct filled as [|x filled].
  - injection Hrun as <- <-. split; [exact Hbound | intros r [= <-]; now left].
  - unfold bind, lift, ret in Hrun.
    destruct (sort_by_time_reverse (x :: filled)) as [sorted|e];
      injection Hrun as <- <-; (split; [exact Hbound|]).
    + intros r [= <-]. right. eauto.
    + intros r Hr. discriminate Hr.
Qed.

(** X2. One call of [get_recent_filled_orders] sends at most 16 requests:
    the account request and at most 15 order requests, whatever the number
    of candidate symbols. *)
Theorem recent_orders_request_cap (limit : Z) (w : World) :
  (length (sent (snd (get_recent_filled_orders self limit w)))
   <= length (sent w) + 16)%nat.
Proof. apply (recent_orders_run limit w). Qed.

(** X3. With a limit that is not negative, the list returned has at most
    [limit] orders. *)
Theorem recent_orders_within_limit (limit : Z) (w : World) (r : list json) :
  0 <= limit ->
  fst (get_recent_filled_orders self limit w) = Ok r ->
  (length r <= Z.to_nat limit)%nat.
Proof.
  intros Hl Hr.
  destruct (proj2 (recent_orders_run limit w) r Hr) as [->|[sorted ->]]; [simpl; lia|].
  unfold py_slice_to. apply Z.leb_le in Hl. rewrite Hl. apply firstn_le_length.
Qed.

(** X4. When the account is available and no reply to an order request has
    a FILLED order, the scan returns the empty list. *)
Theorem recent_orders_none_filled
    (limit : Z) (w w1 : World) (account_info : json) (symbols : list string) :
  get_account_info self w = (Ok account_info, w1) ->
  candidate_symbols account_info = Ok symbols ->
  (forall history r,
      req_url r = (base_url self ++ "/api/v3/allOrders")%string ->
      reply_fills (http_get history r) = []) ->
  fst (get_recent_filled_orders self limit w) = Ok [].
Proof.
  intros Ha Hc Hq. unfold get_recent_filled_orders, bind at 1. rewrite Ha.
  destruct (py_truthy account_info); cbn [negb]; [|reflexivity].
  unfold bind at 1, lift at 1. rewrite Hc. unfold bind at 1.
  pose proof (scan_quiet (firstn 15 symbols) [] w1 Hq) as Hs.
  destruct (scan self [] (firstn 15 symbols) w1) as [[filled|e] w2];
    cbn [fst] in Hs; [|discriminate].
  injection Hs as ->. reflexivity.
Qed.

End Bounds.

Lemma sort_by_time_reverse_spec_witness :
  exists r,
    sort_by_time_reverse [Fixture.order "BTCUSDT" 1 "FILLED" 100;
                          Fixture.order "BTCUSDT" 3 "FILLED" 300;
                          Fixture.order "ETHUSDT" 7 "FILLED" 200] = Ok r /\
    Sorted (fun a b => (Fixture.time_of a >= Fixture.time_of b)) r.
Proof.
  destruct (sort_by_time_reverse_spec Fixture.time_of
              [Fixture.order "BTCUSDT" 1 "FILLED" 100;
               Fixture.order "BTCUSDT" 3 "FILLED" 300;
               Fixture.order "ETHUSDT" 7 "FILLED" 200])
    as (r & Hr & _ & Hs & _).
  - repeat constructor.
  - exists r. split; assumption.
Defined.

Lemma recent_orders_within_limit_witness :
  (length [Fixture.order "BTCUSDT" 3 "FILLED" 300;
           Fixture.order "ETHUSDT" 7 "FILLED" 200] <= Z.to_nat 2)%nat.
Proof.
  apply (recent_orders_within_limit (H:=Fixture.host) Fixture.client 2 Fixture.start).
  - lia.
  - vm_compute. reflexivity.
Defined.

Lemma recent_orders_none_filled_witness :
  fst (get_recent_filled_orders (H:=Fixture.idle) Fixture.client 3 Fixture.start) = Ok [].
Proof.
  apply (recent_orders_none_filled (H:=Fixture.idle) Fixture.client 3 Fixture.start
           (snd (get_account_info (H:=Fixture.idle) Fixture.client Fixture.start))
           Fixture.idle_account
           ["BTCUSDT"; "ETHUSDT"; "BNBUSDT"; "ADAUSDT"; "SOLUSDT"]).
  - vm_compute. reflexivity.
  - vm_compute. reflexivity.
  - intros history r Hu. cbn [http_get Fixture.idle]. unfold Fixture.idle_exchange.
    rewrite Hu. vm_compute. reflexivity.
Defined.

(** * Further properties *)

(** ** The configuration file as a whole *)

Lemma env_line_entry (env_vars : gmap string string) (line : string) :
  env_line env_vars line =
    Ok (match env_entry line with
        | Some (key, value) => <[key := value]> env_vars
        | None => env_vars
        end).
Proof.
  unfold env_line, env_entry.
  destruct (PyStr.contains "=" (PyStr.strip line)) eqn:He.
  - destruct (contains_split _ _ He) as (k & v & -> & Hk).
    rewrite (split_1_at _ _ _ Hk). destruct (_ && _ && _); reflexivity.
  - rewrite andb_false_r. reflexivity.
Qed.


Lemma ofold_env_line (lines : list string) (env_vars : gmap string string) :
  ofold env_line env_vars lines = Ok (fold_left apply_entry lines env_vars).
Proof.
  revert env_vars. induction lines as [|line lines IH]; intros m; [reflexivity|].
  cbn [ofold fold_left]. rewrite env_line_entry. cbn [obind]. apply IH.
Qed.

Lemma fold_apply_entry_other (lines : list string) (env_vars : gmap string string)
    (key : string) :
  Forall (fun line => ~ assigns line key) lines ->
  fold_left apply_entry lines env_vars !! key = env_vars !! key.
Proof.
  intros Hl. revert env_vars.
  induction Hl as [|line lines Hline _ IH]; intros m; [reflexivity|].
  cbn [fold_left]. rewrite IH. unfold apply_entry.
  destruct (env_entry line) as [[k v]|] eqn:He; [|reflexivity].
  apply lookup_insert_ne. intros ->. apply Hline. now exists v.
Qed.

(** X5. Read as a whole, the file gives each key the value of the last line
    that assigns it, and no value to a key that no line assigns. *)
Theorem load_env_file_last_wins (text : string) :
  exists env_vars,
    load_env_file (Ok text) = Ok env_vars /\
    (forall before line after key value,
        PyStr.iter_lines text = before ++ line :: after ->
        env_entry line = Some (key, value) ->
        Forall (fun later => ~ assigns later key) after ->
        env_vars !! key = Some value) /\
    (forall key,
        Forall (fun line => ~ assigns line key) (PyStr.iter_lines text) ->
        env_vars !! key = None).
Proof.
  exists (fold_left apply_entry (PyStr.iter_lines text) ∅).
  split; [apply ofold_env_line|]. split.
  - intros before line after key value -> He Hafter.
    rewrite fold_left_app. cbn [fold_left].
    rewrite (fold_apply_entry_other _ _ _ Hafter). unfold apply_entry. rewrite He.
    apply lookup_insert_eq.
  - intros key Hnone. rewrite (fold_apply_entry_other _ _ _ Hnone). apply lookup_empty.
Qed.

Lemma load_env_file_last_wins_witness :
  exists env_vars,
    load_env_file (Ok Fixture.twice_text) = Ok env_vars /\
    env_vars !! "KEY" = Some "second".
Proof.
  destruct (load_env_file_last_wins Fixture.twice_text) as (env_vars & Hl & Hlast & _).
  exists env_vars. split; [exact Hl|].
  apply (Hlast [Fixture.line_1] Fixture.line_2 [Fixture.line_3] "KEY" "second").
  - reflexivity.
  - reflexivity.
  - repeat constructor. intros [v Hv]. discriminate Hv.
Defined.

(** ** The credentials *)

Lemma opt_truthy_resolve_key (env_vars environ : gmap string string) (name : string) :
  opt_truthy (resolve_key env_vars environ name) = true <->
  has_value env_vars name \/ has_value environ name.
Proof.
  unfold resolve_key, py_or, has_value.
  destruct (env_vars !! name) as [v|] eqn:Hv; cbn [opt_truthy].
  - destruct v as [|c v]; cbn [PyStr.truthy opt_truthy].
    + split.
      * intros Ht. right. destruct (environ !! name) as [u|]; [|discriminate].
        exists u. split; [reflexivity|]. now apply truthy_nonempty.
      * intros [(u & [= <-] & Hu)|(u & -> & Hu)]; [contradiction|].
        now apply truthy_nonempty.
    + split; [|reflexivity]. intros _. left. eexists. split; [reflexivity | discriminate].
  - split.
    + intros Ht. right. destruct (environ !! name) as [u|]; [|discriminate].
      exists u. split; [reflexivity|]. now apply truthy_nonempty.
    + intros [(u & Hu & _)|(u & -> & Hu)]; [discriminate|]. now apply truthy_nonempty.
Qed.

(** X6. Once the file is read, the start-up yields credentials exactly when
    each of the two keys has a non-empty value in the file or in the
    environment; both fields are then non-empty.  In every other case it
    raises [ValueError]. *)
Theorem resolve_credentials_spec
    (file : outcome string) (environ env_vars : gmap string string) :
  load_env_file file = Ok env_vars ->
  let usable name := has_value env_vars name \/ has_value environ name in
  (usable "BINANCE_API_KEY" /\ usable "BINANCE_SECRET_KEY" ->
   exists c,
     resolve_credentials file environ = Ok c /\
     resolve_key env_vars environ "BINANCE_API_KEY" = Some (cred_api_key c) /\
     resolve_key env_vars environ "BINANCE_SECRET_KEY" = Some (cred_secret_key c) /\
     cred_api_key c <> EmptyString /\ cred_secret_key c <> EmptyString) /\
  (~ (usable "BINANCE_API_KEY" /\ usable "BINANCE_SECRET_KEY") ->
   resolve_credentials file environ = Raise ValueError).
Proof.
  intros Hf usable. unfold resolve_credentials. rewrite Hf. cbn [obind].
  pose proof (opt_truthy_resolve_key env_vars environ "BINANCE_API_KEY") as Ha.
  pose proof (opt_truthy_resolve_key env_vars environ "BINANCE_SECRET_KEY") as Hs.
  fold (usable "BINANCE_API_KEY") in Ha. fold (usable "BINANCE_SECRET_KEY") in Hs.
  destruct (resolve_key env_vars environ "BINANCE_API_KEY") as [a|];
    destruct (resolve_key env_vars environ "BINANCE_SECRET_KEY") as [s|];
    cbn [opt_truthy negb orb] in *.
  - destruct (PyStr.truthy a) eqn:Hta; destruct (PyStr.truthy s) eqn:Hts;
      cbn [negb orb]; split; intros Hu;
      try reflexivity;
      try (destruct Hu as [Hu1 Hu2]; apply Ha in Hu1; apply Hs in Hu2; discriminate).
    + exists {| cred_api_key := a; cred_secret_key := s |}. cbn.
      repeat split; try reflexivity; now apply truthy_nonempty.
    + exfalso. apply Hu. split; [apply Ha | apply Hs]; reflexivity.
  - destruct (PyStr.truthy a); cbn [negb orb]; split; intros Hu; try reflexivity;
      destruct Hu as [_ Hu]; apply Hs in Hu; discriminate.
  - split; intros Hu; [|reflexivity]. destruct Hu as [Hu _]. apply Ha in Hu. discriminate.
  - split; intros Hu; [|reflexivity]. destruct Hu as [Hu _]. apply Ha in Hu. discriminate.
Qed.

Lemma resolve_credentials_spec_witness :
  resolve_credentials (Raise FileNotFoundError) ∅ = Raise ValueError /\
  exists c,
    resolve_credentials (Raise FileNotFoundError) Fixture.environ = Ok c /\
    cred_api_key c <> EmptyString.
Proof.
  split.
  - apply (proj2 (resolve_credentials_spec (Raise FileNotFoundError) ∅ ∅ eq_refl)).
    intros [[(v & Hv & _)|(v & Hv & _)] _]; discriminate Hv.
  - destruct (proj1 (resolve_credentials_spec (Raise FileNotFoundError)
                       Fixture.environ ∅ eq_refl)) as (c & Hc & _ & _ & Ha & _).
    + split; right; eexists; (split; [reflexivity | discriminate]).
    + exists c. split; assumption.
Defined.

(** ** The query string *)

Lemma append_empty_r (s : string) : (s ++ EmptyString)%string = s.
Proof. induction s as [|c s IH]; [reflexivity|]. rewrite append_cons. now rewrite IH. Qed.

Lemma append_assoc_s (a b c : string) : ((a ++ b) ++ c)%string = (a ++ (b ++ c))%string.
Proof.
  induction a as [|x a IH]; [reflexivity|]. rewrite !append_cons. now rewrite IH.
Qed.

Lemma concat_empty_cons (x : string) (l : list string) :
  String.concat EmptyString (x :: l) = (x ++ String.concat EmptyString l)%string.
Proof.
  destruct l as [|y l]; cbn [String.concat]; [now rewrite append_empty_r | reflexivity].
Qed.

Lemma concat_snoc (sep x : string) (l : list string) :
  l <> [] ->
  String.concat sep (l ++ [x]) = (String.concat sep l ++ sep ++ x)%string.
Proof.
  induction l as [|y l IH]; [congruence|]. intros _.
  destruct l as [|z l]; [reflexivity|].
  change (String.concat sep ((y :: z :: l) ++ [x]))
    with (y ++ sep ++ String.concat sep ((z :: l) ++ [x]))%string.
  rewrite IH by discriminate.
  change (String.concat sep (y :: z :: l))
    with (y ++ sep ++ String.concat sep (z :: l))%string.
  now rewrite !append_assoc_s.
Qed.

Lemma always_safe_ascii (n : Z) : Url.always_safe n = true -> n < 128.
Proof.
  unfold Url.always_safe. intros Hn.
  rewrite ?orb_true_iff, ?andb_true_iff, ?Z.leb_le, ?Z.eqb_eq in Hn. lia.
Qed.

Lemma quote_plus_safe (s : string) : url_safe s = true -> Url.quote_plus s = s.
Proof.
  unfold url_safe, Url.quote_plus.
  induction s as [|c s IH]; [reflexivity|].
  cbn [PyStr.all_of encode_utf8]. intros Hs. apply andb_true_iff in Hs as [Hc Hs].
  pose proof (always_safe_ascii _ Hc) as Hlt. apply Z.ltb_lt in Hlt. rewrite Hlt.
  cbn [map]. rewrite concat_empty_cons, (IH Hs).
  unfold Url.quote_byte. rewrite Hc, N2Z.id, ascii_N_embedding. reflexivity.
Qed.

Lemma uint_safe (d : Decimal.uint) : url_safe (NilEmpty.string_of_uint d) = true.
Proof. induction d; cbn; auto. Qed.

Lemma of_Z_safe (z : Z) : url_safe (PyStr.of_Z z) = true.
Proof.
  unfold PyStr.of_Z, NilZero.string_of_int.
  destruct (Z.to_int z) as [d|d]; unfold NilZero.string_of_uint;
    destruct d; try reflexivity; cbn; apply uint_safe.
Qed.

Lemma all_of_impl (p q : ascii -> bool) (s : string) :
  (forall c, p c = true -> q c = true) ->
  PyStr.all_of p s = true -> PyStr.all_of q s = true.
Proof.
  intros Hpq. induction s as [|c s IH]; [reflexivity|].
  cbn [PyStr.all_of]. intros Hs. apply andb_true_iff in Hs as [Hc Hs].
  now rewrite (Hpq c Hc), (IH Hs).
Qed.

Lemma hex_digit_safe (c : ascii) :
  Hmac.is_hex_digit c = true -> Url.always_safe (Z.of_N (N_of_ascii c)) = true.
Proof.
  unfold Hmac.is_hex_digit, Url.always_safe. cbv zeta. intros Hc.
  rewrite ?orb_true_iff, ?andb_true_iff, ?N.leb_le in Hc.
  rewrite ?orb_true_iff, ?andb_true_iff, ?Z.leb_le, ?Z.eqb_eq. lia.
Qed.

Lemma signature_safe (key msg : bytes) :
  url_safe (Hmac.hex (Hmac.hmac_sha256 key msg)) = true.
Proof.
  unfold url_safe. apply (all_of_impl Hmac.is_hex_digit); [apply hex_digit_safe|].
  apply hex_digits. unfold Hmac.hmac_sha256. cbv zeta. apply digest_bytes.
Qed.

Section QueryString.
Context `{Host}.
Variable self : BinanceAPI.

(** X7. The string that [get_all_orders] signs for a symbol made of letters
    and digits is [limit=<limit>&symbol=<symbol>&timestamp=<clock>], in this
    order, and the signature that goes out is its digest under the secret
    key. *)
Theorem order_query_string (symbol : string) (limit : Z) (w : World) :
  symbol <> EmptyString ->
  url_safe symbol = true ->
  exists r,
    sent (snd (get_all_orders self (JStr symbol) limit w)) = sent w ++ [r] /\
    dict_get "signature" (req_params r) =
      Some (JStr (Hmac.hex (Hmac.hmac_sha256
                              (encode_utf8 (secret_key self))
                              (encode_utf8
                                 (String.concat "&"
                                    [("limit=" ++ PyStr.of_Z limit)%string;
                                     ("symbol=" ++ symbol)%string;
                                     ("timestamp=" ++ PyStr.of_Z (clock (ticks w)))%string]))))).
Proof.
  intros Hne Hsafe. unfold get_all_orders. cbn [py_truthy].
  apply truthy_nonempty in Hne. rewrite Hne, bind_ret, make_request_sent.
  eexists. split; [reflexivity|].
  unfold request_of. cbn [req_params]. rewrite dict_get_set_same.
  do 4 f_equal.
  change (dict_set (dict_set [("limit", JInt limit)] "symbol" (JStr symbol))
                   "timestamp" (JInt (clock (ticks w))))
    with [("limit", JInt limit); ("symbol", JStr symbol);
          ("timestamp", JInt (clock (ticks w)))].
  unfold Url.urlencode. cbn [map fst snd py_str].
  rewrite (quote_plus_safe "limit") by reflexivity.
  rewrite (quote_plus_safe "symbol") by reflexivity.
  rewrite (quote_plus_safe "timestamp") by reflexivity.
  rewrite !(quote_plus_safe (PyStr.of_Z _)) by apply of_Z_safe.
  rewrite (quote_plus_safe symbol) by exact Hsafe.
  reflexivity.
Qed.

(** X8. When the caller's parameters have no [signature] entry, the
    URL-encoding of the parameters handed to [requests.get] is the signed
    query string followed by [&signature=] and the digest: what is signed is
    what is sent. *)
Theorem transmitted_query_string (endpoint : string) (params : option dict) (w : World) :
  let p := match params with None => [] | Some p => p end in
  let signed := Url.urlencode (dict_set p "timestamp" (JInt (clock (ticks w)))) in
  let signature :=
    Hmac.hex (Hmac.hmac_sha256 (encode_utf8 (secret_key self)) (encode_utf8 signed)) in
  dict_get "signature" p = None ->
  exists r,
    sent (snd (_make_request self endpoint params w)) = sent w ++ [r] /\
    Url.urlencode (req_params r) = (signed ++ "&signature=" ++ signature)%string.
Proof.
  intros p signed signature Hp. rewrite make_request_sent.
  eexists. split; [reflexivity|].
  unfold request_of. cbn [req_params]. fold p. fold signed. fold signature.
  rewrite dict_set_fresh
    by (rewrite dict_get_set_other; [exact Hp | discriminate]).
  unfold Url.urlencode at 1. rewrite map_app. cbn [map fst snd py_str].
  rewrite concat_snoc.
  - rewrite (quote_plus_safe "signature") by reflexivity.
    rewrite (quote_plus_safe signature) by apply signature_safe.
    reflexivity.
  - destruct p as [|[k v] p']; cbn; [discriminate|].
    destruct (String.eqb k "timestamp"); discriminate.
Qed.

End QueryString.

Lemma order_query_string_witness :
  exists r,
    sent (snd (get_all_orders (H:=Fixture.host) Fixture.client (JStr "BTCUSDT") 20
                 Fixture.start)) = [r] /\
    dict_get "signature" (req_params r) =
      Some (JStr (Hmac.hex (Hmac.hmac_sha256
                              (encode_utf8 "my-secret-key")
                              (encode_utf8
                                 "limit=20&symbol=BTCUSDT&timestamp=1700000000000")))).
Proof.
  destruct (order_query_string (H:=Fixture.host) Fixture.client "BTCUSDT" 20 Fixture.start)
    as (r & Hr & Hs).
  - discriminate.
  - reflexivity.
  - exists r. split; [exact Hr | exact Hs].
Defined.

Lemma transmitted_query_string_witness :
  exists r,
    sent (snd (_make_request (H:=Fixture.host) Fixture.client "/api/v3/account" None
                 Fixture.start)) = [r] /\
    Url.urlencode (H:=Fixture.host) (req_params r) =
      ("timestamp=1700000000000&signature=" ++
       Hmac.hex (Hmac.hmac_sha256 (encode_utf8 "my-secret-key")
                                  (encode_utf8 "timestamp=1700000000000")))%string.
Proof.
  destruct (transmitted_query_string (H:=Fixture.host) Fixture.client "/api/v3/account"
              None Fixture.start) as (r & Hr & Hs).
  - reflexivity.
  - exists r. split; [exact Hr | exact Hs].
Defined.

(** ** What goes out, and in which order *)

Section Trace.
Context `{Host}.
Variable self : BinanceAPI.

(** [get_recent_filled_orders], branch by branch. *)
Lemma recent_orders_cases (limit : Z) (w : World) :
  get_recent_filled_orders self limit w =
    match get_account_info self w with
    | (Raise e, w1) => (Raise e, w1)
    | (Ok account_info, w1) =>
        if py_truthy account_info then
          match candidate_symbols account_info with
          | Raise e => (Raise e, w1)
          | Ok symbols =>
              match scan self [] (firstn 15 symbols) w1 with
              | (Raise e, w2) => (Raise e, w2)
              | (Ok [], w2) => (Ok [], w2)
              | (Ok (o :: filled), w2) =>
                  (match sort_by_time_reverse (o :: filled) with
                   | Ok sorted => Ok (py_slice_to limit sorted)
                   | Raise e => Raise e
                   end, w2)
              end
          end
        else (Ok [], w1)
    end.
Proof.
  unfold get_recent_filled_orders, bind at 1.
  destruct (get_account_info self w) as [[account_info|e] w1]; [|reflexivity].
  destruct (py_truthy account_info); cbn [negb]; [|reflexivity].
  unfold bind at 1, lift at 1.
  destruct (candidate_symbols account_info) as [symbols|e]; [|reflexivity].
  unfold bind at 1.
  destruct (scan self [] (firstn 15 symbols) w1) as [[[|o filled]|e] w2]; try reflexivity.
  unfold bind, lift, ret.
  destruct (sort_by_time_reverse (o :: filled)); reflexivity.
Qed.

Lemma make_request_world (endpoint : string) (params : option dict) (w : World) :
  let w' := snd (_make_request self endpoint params w) in
  ticks w' = S (ticks w) /\
  sent w' = sent w ++ [request_of self endpoint params (clock (ticks w))] /\
  exists lines, stdout w' = stdout w ++ lines.
Proof.
  cbv zeta. rewrite make_request_run. cbv zeta.
  destruct (http_get _ _) as [response|e].
  - destruct (status_code response =? 200); cbn.
    + repeat split. exists []. now rewrite app_nil_r.
    + repeat split. eexists. rewrite <- app_assoc. reflexivity.
  - cbn. repeat split. exists []. now rewrite app_nil_r.
Qed.

Lemma get_all_orders_world (symbol : string) (w : World) :
  symbol <> EmptyString ->
  let w' := snd (get_all_orders self (JStr symbol) 20 w) in
  ticks w' = S (ticks w) /\
  sent w' = sent w ++ [orders_request self symbol (clock (ticks w))].
Proof.
  intros Hs. cbv zeta. unfold get_all_orders. cbn [py_truthy].
  apply truthy_nonempty in Hs. rewrite Hs, bind_ret.
  destruct (make_request_world "/api/v3/allOrders"
              (Some (dict_set [("limit", JInt 20)] "symbol" (JStr symbol))) w)
    as (Ht & Hse & _).
  split; [exact Ht | exact Hse].
Qed.

Lemma scan_trace (symbols : list string) (all_filled_orders : list json) (w : World) :
  Forall (fun s => s <> EmptyString) symbols ->
  let w' := snd (scan self all_filled_orders symbols w) in
  ticks w' = (ticks w + length symbols)%nat /\
  sent w' = sent w ++ order_requests self symbols (ticks w).
Proof.
  intros Hs. revert all_filled_orders w.
  induction Hs as [|s symbols Hne _ IH]; intros acc w; cbn [scan order_requests length].
  - unfold ret. cbn. split; [lia | now rewrite app_nil_r].
  - unfold bind. rewrite scan_symbol_run.
    destruct (get_all_orders_world s w Hne) as [Ht Hse].
    destruct (IH (acc ++ fills_of (fst (get_all_orders self (JStr s) 20 w)))
                 (snd (get_all_orders self (JStr s) 20 w))) as [Ht' Hse'].
    rewrite Ht', Hse', Ht, Hse, <- app_assoc. split; [lia | reflexivity].
Qed.

Lemma recent_orders_sent
    (limit : Z) (w w1 : World) (account_info : json) (symbols : list string) :
  set_semantics H ->
  get_account_info self w = (Ok account_info, w1) ->
  py_truthy account_info = true ->
  candidate_symbols account_info = Ok symbols ->
  let w' := snd (get_recent_filled_orders self limit w) in
  sent w' = sent w ++ account_request self (clock (ticks w))
                      :: order_requests self (firstn 15 symbols) (S (ticks w)) /\
  ticks w' = (ticks w + 1 + length (firstn 15 symbols))%nat.
Proof.
  intros Hset Ha Ht Hc. cbv zeta.
  destruct (make_request_world "/api/v3/account" None w) as (Hticks & Hsent & _).
  fold (get_account_info self) in Hticks, Hsent. rewrite Ha in Hticks, Hsent.
  cbn [snd] in Hticks, Hsent.
  destruct (candidate_symbols_nonempty _ _ Hset Hc) as (Hne & _ & _).
  assert (Forall (fun s => s <> EmptyString) (firstn 15 symbols)) as Hne15.
  { now apply Forall_take. }
  destruct (scan_trace (firstn 15 symbols) [] w1 Hne15) as [Ht2 Hs2].
  rewrite recent_orders_cases, Ha, Ht, Hc.
  assert (forall o w2,
             scan self [] (firstn 15 symbols) w1 = (o, w2) ->
             sent w2 = sent w ++ account_request self (clock (ticks w))
                                 :: order_requests self (firstn 15 symbols) (S (ticks w)) /\
             ticks w2 = (ticks w + 1 + length (firstn 15 symbols))%nat) as Hw2.
  { intros o w2 Hscan. rewrite Hscan in Ht2, Hs2. cbn [snd] in Ht2, Hs2.
    rewrite Hs2, Ht2, Hsent, Hticks, <- app_assoc. split; [reflexivity | lia]. }
  destruct (scan self [] (firstn 15 symbols) w1) as [[[|o filled]|e] w2];
    cbn [snd]; now apply (Hw2 _ _ eq_refl).
Qed.

(** X9. When the account is available, the requests of one call are the
    account request followed by one order request with [limit=20] for each
    of the first 15 candidate symbols, in the order of the candidate list,
    each stamped with the next clock reading; nothing else is sent. *)
Theorem recent_orders_trace
    (limit : Z) (w w1 : World) (account_info : json) (symbols : list string) :
  set_semantics H ->
  get_account_info self w = (Ok account_info, w1) ->
  py_truthy account_info = true ->
  candidate_symbols account_info = Ok symbols ->
  let w' := snd (get_recent_filled_orders self limit w) in
  sent w' = sent w ++ account_request self (clock (ticks w))
                      :: order_requests self (firstn 15 symbols) (S (ticks w)) /\
  ticks w' = (ticks w + 1 + length (firstn 15 symbols))%nat.
Proof. apply recent_orders_sent. Qed.

(** X18. No symbol is asked for twice in one call: the symbols of the order
    requests are distinct candidate symbols, at most 15 of them. *)
Theorem no_symbol_twice
    (limit : Z) (w w1 : World) (account_info : json) (symbols : list string) :
  set_semantics H ->
  get_account_info self w = (Ok account_info, w1) ->
  py_truthy account_info = true ->
  candidate_symbols account_info = Ok symbols ->
  exists queried,
    sent (snd (get_recent_filled_orders self limit w))
      = sent w ++ account_request self (clock (ticks w))
               :: order_requests self queried (S (ticks w)) /\
    NoDup queried /\
    (length queried <= 15)%nat /\
    forall s, s ∈ queried -> s ∈ symbols.
Proof.
  intros Hset Ha Ht Hc. exists (firstn 15 symbols).
  split; [apply (recent_orders_sent limit w w1 account_info symbols Hset Ha Ht Hc)|].
  destruct (candidate_symbols_nonempty _ _ Hset Hc) as (_ & Hnd & _).
  split; [|split].
  - eapply sublist_NoDup; [exact Hnd | apply sublist_take].
  - rewrite length_firstn. lia.
  - intros s Hs. eapply elem_of_sublist; [exact Hs | apply sublist_take].
Qed.

(** X10. What each method of the client puts on the wire: with a truthy
    symbol [get_all_orders] and [get_last_trade] send [limit], [symbol],
    [timestamp], [signature], in this order, to [allOrders] and [myTrades];
    [get_account_info] and [get_open_orders] send [timestamp] and
    [signature] alone, to [account] and [openOrders]; every request carries
    the API key in the one header [X-MBX-APIKEY]. *)
Theorem api_requests (symbol : json) (limit : Z) (w : World) :
  py_truthy symbol = true ->
  let t := clock (ticks w) in
  exists r_orders r_trades r_account r_open s1 s2 s3 s4,
    sent (snd (get_all_orders self symbol limit w)) = sent w ++ [r_orders] /\
    sent (snd (get_last_trade self symbol limit w)) = sent w ++ [r_trades] /\
    sent (snd (get_account_info self w)) = sent w ++ [r_account] /\
    sent (snd (get_open_orders self w)) = sent w ++ [r_open] /\
    req_url r_orders = (base_url self ++ "/api/v3/allOrders")%string /\
    req_url r_trades = (base_url self ++ "/api/v3/myTrades")%string /\
    req_url r_account = (base_url self ++ "/api/v3/account")%string /\
    req_url r_open = (base_url self ++ "/api/v3/openOrders")%string /\
    req_params r_orders = [("limit", JInt limit); ("symbol", symbol);
                           ("timestamp", JInt t); ("signature", JStr s1)] /\
    req_params r_trades = [("limit", JInt limit); ("symbol", symbol);
                           ("timestamp", JInt t); ("signature", JStr s2)] /\
    req_params r_account = [("timestamp", JInt t); ("signature", JStr s3)] /\
    req_params r_open = [("timestamp", JInt t); ("signature", JStr s4)] /\
    Forall (fun r => req_headers r = [("X-MBX-APIKEY", api_key self)])
           [r_orders; r_trades; r_account; r_open].
Proof.
  intros Hs t. unfold get_all_orders, get_last_trade, get_account_info, get_open_orders.
  rewrite Hs, !bind_ret, !make_request_sent. fold t.
  eexists _, _, _, _, _, _, _, _.
  repeat (split; [reflexivity|]). repeat constructor.
Qed.

(** ** When [get_recent_filled_orders] raises *)

Lemma omap_first_failure {A B : Type} (f : A -> outcome B)
    (l1 : list A) (x : A) (l2 : list A) (e : exn) :
  Forall (fun y => is_ok (f y) = true) l1 ->
  f x = Raise e ->
  omap f (l1 ++ x :: l2) = Raise e.
Proof.
  intros Hl Hx. induction Hl as [|y l1 Hy _ IH]; cbn [app omap].
  - now rewrite Hx.
  - destruct (f y); [|discriminate]. cbn [obind]. now rewrite IH.
Qed.


(** X12. A failure of the transport on the account request is not turned
    into an empty result: the exception leaves [get_recent_filled_orders],
    and no order request is sent. *)
Theorem account_transport_failure (limit : Z) (w : World) (e : exn) :
  http_get (sent w) (account_request self (clock (ticks w))) = Raise e ->
  get_recent_filled_orders self limit w
    = (Raise e, after_request w (account_request self (clock (ticks w)))).
Proof.
  intros He. rewrite recent_orders_cases. unfold get_account_info.
  rewrite make_request_run. cbv zeta.
  fold (account_request self (clock (ticks w))). now rewrite He.
Qed.

(** X13. An account info that is a non-empty object without [balances]
    makes [get_recent_filled_orders] raise [KeyError('balances')] right
    after the account request, before any order request. *)
Theorem account_without_balances
    (limit : Z) (w w1 : World) (entries : list (string * json)) :
  get_account_info self w = (Ok (JDict entries), w1) ->
  entries <> [] ->
  dict_get "balances" entries = None ->
  get_recent_filled_orders self limit w = (Raise (KeyError "balances"), w1).
Proof.
  intros Ha Hne Hb. rewrite recent_orders_cases, Ha.
  destruct entries as [|kv entries]; [congruence|]. cbn [py_truthy].
  unfold candidate_symbols, symbols_with_balance, py_getitem. now rewrite Hb.
Qed.

(** X14. A FILLED order without [time] makes the sort of line 156 raise,
    and the exception leaves [get_recent_filled_orders] although the scan
    itself succeeded: here the error of one order is not swallowed. *)
Theorem filled_order_without_time
    (limit : Z) (w w1 w2 : World) (account_info : json) (symbols : list string)
    (before : list json) (order : json) (after : list json) (e : exn) :
  get_account_info self w = (Ok account_info, w1) ->
  py_truthy account_info = true ->
  candidate_symbols account_info = Ok symbols ->
  scan self [] (firstn 15 symbols) w1 = (Ok (before ++ order :: after), w2) ->
  Forall (fun o => is_ok (py_getitem o "time") = true) before ->
  py_getitem order "time" = Raise e ->
  get_recent_filled_orders self limit w = (Raise e, w2).
Proof.
  intros Ha Ht Hc Hs Hb Ho. rewrite recent_orders_cases, Ha, Ht, Hc, Hs.
  assert (sort_by_time_reverse (before ++ order :: after) = Raise e) as Hsort.
  { unfold sort_by_time_reverse.
    now rewrite (omap_first_failure _ _ _ _ _ Hb Ho). }
  destruct (before ++ order :: after) as [|o filled] eqn:Hl.
  - destruct before; discriminate Hl.
  - now rewrite Hsort.
Qed.

End Trace.

Lemma recent_orders_trace_witness :
  sent (snd (get_recent_filled_orders (H:=Fixture.host) Fixture.client 3 Fixture.start))
  = [] ++ account_request (H:=Fixture.host) Fixture.client 1700000000000
          :: order_requests (H:=Fixture.host) Fixture.client
               (firstn 15 ["BTCBTC"; "ETHBTC"; "BTCETH"; "ETHETH"; "BTCUSDT"; "ETHUSDT";
                           "BNBUSDT"; "ADAUSDT"; "SOLUSDT"]) 1.
Proof.
  apply (recent_orders_trace (H:=Fixture.host) Fixture.client 3 Fixture.start
           (snd (get_account_info (H:=Fixture.host) Fixture.client Fixture.start))
           Fixture.account).
  - exact fixture_set_semantics.
  - vm_compute. reflexivity.
  - reflexivity.
  - vm_compute. reflexivity.
Defined.

Lemma api_requests_witness :
  exists r s,
    sent (snd (get_last_trade (H:=Fixture.host) Fixture.client (JStr "BTCUSDT") 1
                 Fixture.start)) = [r] /\
    req_params r = [("limit", JInt 1); ("symbol", JStr "BTCUSDT");
                    ("timestamp", JInt 1700000000000); ("signature", JStr s)].
Proof.
  destruct (api_requests (H:=Fixture.host) Fixture.client (JStr "BTCUSDT") 1 Fixture.start)
    as (r1 & r2 & r3 & r4 & s1 & s2 & s3 & s4 & _ & H2 & _ & _ & _ & _ & _ & _ & _ & P2 & _).
  - reflexivity.
  - exists r2, s2. split; [exact H2 | exact P2].
Defined.

Lemma account_transport_failure_witness :
  get_recent_filled_orders (H:=Fixture.offline) Fixture.client 3 Fixture.start
  = (Raise RequestException,
     after_request Fixture.start
       (account_request (H:=Fixture.offline) Fixture.client 1700000000000)).
Proof.
  apply (account_transport_failure (H:=Fixture.offline) Fixture.client 3 Fixture.start).
  reflexivity.
Defined.

Lemma account_without_balances_witness :
  get_recent_filled_orders (H:=Fixture.maintenance) Fixture.client 3 Fixture.start
  = (Raise (KeyError "balances"),
     snd (get_account_info (H:=Fixture.maintenance) Fixture.client Fixture.start)).
Proof.
  apply (account_without_balances (H:=Fixture.maintenance) Fixture.client 3 Fixture.start
           _ [("msg", JStr "maintenance")]).
  - vm_compute. reflexivity.
  - discriminate.
  - reflexivity.
Defined.

Lemma filled_order_without_time_witness :
  fst (get_recent_filled_orders (H:=Fixture.timeless) Fixture.client 3 Fixture.start)
  = Raise (KeyError "time").
Proof.
  rewrite (filled_order_without_time (H:=Fixture.timeless) Fixture.client 3 Fixture.start
             (snd (get_account_info (H:=Fixture.timeless) Fixture.client Fixture.start))
             (snd (scan (H:=Fixture.timeless) Fixture.client []
                     ["BTCUSDT"; "ETHUSDT"; "BNBUSDT"; "ADAUSDT"; "SOLUSDT"]
                     (snd (get_account_info (H:=Fixture.timeless) Fixture.client
                             Fixture.start))))
             Fixture.idle_account
             ["BTCUSDT"; "ETHUSDT"; "BNBUSDT"; "ADAUSDT"; "SOLUSDT"]
             [] Fixture.timeless_order
             [Fixture.timeless_order; Fixture.timeless_order; Fixture.timeless_order;
              Fixture.timeless_order]
             (KeyError "time")).
  - reflexivity.
  - vm_compute. reflexivity.
  - reflexivity.
  - vm_compute. reflexivity.
  - vm_compute. reflexivity.
  - constructor.
  - reflexivity.
Defined.

Lemma no_symbol_twice_witness :
  exists queried,
    sent (snd (get_recent_filled_orders (H:=Fixture.host) Fixture.client 3 Fixture.start))
      = [] ++ account_request (H:=Fixture.host) Fixture.client 1700000000000
              :: order_requests (H:=Fixture.host) Fixture.client queried 1 /\
    NoDup queried.
Proof.
  destruct (no_symbol_twice (H:=Fixture.host) Fixture.client 3 Fixture.start
              (snd (get_account_info (H:=Fixture.host) Fixture.client Fixture.start))
              Fixture.account
              ["BTCBTC"; "ETHBTC"; "BTCETH"; "ETHETH"; "BTCUSDT"; "ETHUSDT";
               "BNBUSDT"; "ADAUSDT"; "SOLUSDT"])
    as (queried & Hs & Hnd & _).
  - exact fixture_set_semantics.
  - vm_compute. reflexivity.
  - reflexivity.
  - vm_compute. reflexivity.
  - exists queried. split; [exact Hs | exact Hnd].
Defined.

(** ** What the result is made of *)

Lemma ofilter_sound {A : Type} (p : A -> outcome bool) (l r : list A) :
  ofilter p l = Ok r -> Forall (fun x => p x = Ok true) r.
Proof.
  revert r. induction l as [|x l IH]; intros r; cbn [ofilter].
  - intros [= <-]. constructor.
  - destruct (p x) as [b|e] eqn:Hx; cbn [obind]; [|discriminate].
    destruct (ofilter p l) as [r'|e]; cbn [obind]; [|discriminate].
    intros [= <-]. destruct b; [constructor|]; auto.
Qed.

Lemma filled_orders_filled (orders : json) (filled : list json) :
  filled_orders orders = Ok filled -> Forall is_filled filled.
Proof.
  unfold filled_orders. destruct (py_iter orders) as [items|e]; cbn [obind]; [|discriminate].
  intros Hf. apply ofilter_sound in Hf. eapply Forall_impl; [exact Hf|].
  intros o Ho. cbv beta in Ho. unfold is_filled.
  destruct (py_getitem o "status") as [st|e]; cbn [obind] in Ho; [|discriminate].
  injection Ho as Ho. destruct st; try discriminate.
  cbn [py_eq_str] in Ho. apply String.eqb_eq in Ho. now subst.
Qed.

Lemma fills_of_filled (fetched : outcome json) : Forall is_filled (fills_of fetched).
Proof.
  unfold fills_of. destruct fetched as [orders|e]; [|constructor].
  destruct (py_truthy orders); [|constructor].
  destruct (filled_orders orders) eqn:Hf; [|constructor].
  eapply filled_orders_filled, Hf.
Qed.

Lemma insert_desc_perm_any {K A : Type} (lt : K -> K -> bool) (x : K * A) (l : list (K * A)) :
  Permutation (x :: l) (insert_desc lt x l).
Proof.
  induction l as [|y l IH]; cbn [insert_desc]; [reflexivity|].
  destruct (lt (fst x) (fst y)); [|reflexivity].
  rewrite perm_swap. now apply perm_skip.
Qed.

Lemma sort_desc_perm {K A : Type} (lt : K -> K -> bool) (l : list (K * A)) :
  Permutation (map snd l) (sort_desc lt l).
Proof.
  unfold sort_desc. apply Permutation_map.
  induction l as [|x l IH]; cbn [fold_right]; [reflexivity|].
  rewrite <- insert_desc_perm_any. now apply perm_skip.
Qed.

Lemma snd_combine {K A : Type} (ks : list K) (l : list A) :
  length ks = length l -> map snd (combine ks l) = l.
Proof.
  revert ks. induction l as [|x l IH]; intros [|k ks]; cbn; try congruence.
  intros [= Hl]. now rewrite IH.
Qed.

Lemma omap_length {A B : Type} (f : A -> outcome B) (l : list A) (r : list B) :
  omap f l = Ok r -> length r = length l.
Proof.
  intros Hr. apply omap_inv in Hr. induction Hr; cbn; congruence.
Qed.

Lemma sort_by_time_perm (l sorted : list json) :
  sort_by_time_reverse l = Ok sorted ->
  Permutation l sorted /\ Forall (fun o => is_ok (py_getitem o "time") = true) l.
Proof.
  unfold sort_by_time_reverse.
  destruct (omap (fun x => py_getitem x "time") l) as [keys|e] eqn:Hk; cbn [obind];
    [|discriminate].
  intros Hs. split.
  - pose proof (omap_length _ _ _ Hk) as Hlen.
    destruct (length l <=? 1)%nat; [now injection Hs as <-|].
    destruct (mapM num_key keys) as [ks|] eqn:Hn.
    + injection Hs as <-. apply length_mapM in Hn.
      rewrite <- (snd_combine ks l) at 1 by congruence. apply sort_desc_perm.
    + destruct (mapM str_key keys) as [ks|] eqn:Hst; [|discriminate].
      injection Hs as <-. apply length_mapM in Hst.
      rewrite <- (snd_combine ks l) at 1 by congruence. apply sort_desc_perm.
  - apply omap_inv in Hk. clear Hs.
    induction Hk as [|o k l keys Ho _ IH]; constructor; [now rewrite Ho | exact IH].
Qed.

Lemma py_slice_to_Forall {A : Type} (P : A -> Prop) (n : Z) (l : list A) :
  Forall P l -> Forall P (py_slice_to n l).
Proof.
  intros Hl. unfold py_slice_to. destruct (0 <=? n); now apply Forall_take.
Qed.

Section Result.
Context `{Host}.
Variable self : BinanceAPI.

Lemma scan_invariant (P : json -> Prop) (symbols : list string)
    (all_filled_orders : list json) (w : World) (r : list json) :
  (forall fetched, Forall P (fills_of fetched)) ->
  Forall P all_filled_orders ->
  fst (scan self all_filled_orders symbols w) = Ok r ->
  Forall P r.
Proof.
  intros Hfills. revert all_filled_orders w.
  induction symbols as [|s symbols IH]; intros acc w Hacc; cbn [scan].
  - unfold ret. cbn [fst]. now intros [= <-].
  - unfold bind. rewrite scan_symbol_run. apply IH.
    apply Forall_app. split; [exact Hacc | apply Hfills].
Qed.

(** How a returned list came about. *)
Lemma recent_orders_origin (limit : Z) (w : World) (r : list json) :
  fst (get_recent_filled_orders self limit w) = Ok r ->
  r = [] \/
  exists symbols w1 filled sorted,
    fst (scan self [] symbols w1) = Ok filled /\
    sort_by_time_reverse filled = Ok sorted /\
    r = py_slice_to limit sorted.
Proof.
  rewrite recent_orders_cases.
  destruct (get_account_info self w) as [[account_info|e] w1]; [|discriminate].
  destruct (py_truthy account_info); [|cbn; intros [= <-]; now left].
  destruct (candidate_symbols account_info) as [symbols|e]; [|discriminate].
  destruct (scan self [] (firstn 15 symbols) w1) as [[[|o filled]|e] w2] eqn:Hs;
    [cbn; intros [= <-]; now left | | discriminate].
  cbn [fst]. destruct (sort_by_time_reverse (o :: filled)) as [sorted|e] eqn:Hsort;
    [|discriminate].
  intros [= <-]. right. exists (firstn 15 symbols), w1, (o :: filled), sorted.
  rewrite Hs. auto.
Qed.

(** X15. Every order that [get_recent_filled_orders] returns has the status
    FILLED and has a [time]. *)
Theorem returned_orders_filled (limit : Z) (w : World) (r : list json) :
  fst (get_recent_filled_orders self limit w) = Ok r ->
  Forall (fun o => is_filled o /\ is_ok (py_getitem o "time") = true) r.
Proof.
  intros Hr.
  destruct (recent_orders_origin _ _ _ Hr)
    as [->|(symbols & w1 & filled & sorted & Hscan & Hsort & ->)]; [constructor|].
  apply py_slice_to_Forall.
  destruct (sort_by_time_perm _ _ Hsort) as [Hperm Htime].
  pose proof (scan_invariant is_filled _ _ _ _ fills_of_filled (Forall_nil_2 _) Hscan) as Hf.
  rewrite <- Hperm. apply Forall_forall. intros o Ho.
  rewrite Forall_forall in Hf, Htime. auto.
Qed.

End Result.

Lemma returned_orders_filled_witness :
  Forall (fun o => is_filled o /\ is_ok (py_getitem o "time") = true)
         [Fixture.order "BTCUSDT" 3 "FILLED" 300; Fixture.order "ETHUSDT" 7 "FILLED" 200].
Proof.
  apply (returned_orders_filled (H:=Fixture.host) Fixture.client 2 Fixture.start).
  vm_compute. reflexivity.
Defined.

(** ** The order of the result *)

Lemma Sorted_take {A : Type} (R : A -> A -> Prop) (l : list A) (n : nat) :
  Sorted R l -> Sorted R (firstn n l).
Proof.
  intros Hl. revert n. induction Hl as [|x l Hs IH Hhd]; intros [|n]; cbn [firstn];
    try constructor.
  - apply IH.
  - destruct Hhd as [|y l' Hxy]; [destruct n; constructor|].
    destruct n; cbn [firstn]; constructor. exact Hxy.
Qed.

Lemma numeric_keyed (l : list json) (keys : list json) (ks : list Z) :
  Forall2 (fun o k => py_getitem o "time" = Ok k) l keys ->
  Forall2 (fun k z => num_key k = Some z) keys ks ->
  Forall (fun p => fst p = order_time (snd p)) (combine ks l).
Proof.
  intros Hk. revert ks. induction Hk as [|o k l keys Ho _ IH]; intros ks Hn.
  - inversion Hn; subst. constructor.
  - inversion Hn as [|k' z keys' ks' Hz Hrest]; subst. cbn [combine].
    constructor; [|now apply IH].
    cbn [fst snd]. unfold order_time. now rewrite Ho, Hz.
Qed.

Lemma string_keyed (l : list json) (keys : list json) (ks : list string) :
  Forall2 (fun o k => py_getitem o "time" = Ok k) l keys ->
  Forall2 (fun k t => str_key k = Some t) keys ks ->
  Forall (fun o => exists k t, py_getitem o "time" = Ok k /\ str_key k = Some t) l.
Proof.
  intros Hk. revert ks. induction Hk as [|o k l keys Ho _ IH]; intros ks Hn.
  - constructor.
  - inversion Hn as [|k' t keys' ks' Ht Hrest]; subst. constructor; eauto.
Qed.

Lemma sort_by_time_cases (l sorted : list json) :
  sort_by_time_reverse l = Ok sorted ->
  (length sorted <= 1)%nat \/
  Sorted (fun a b => (order_time a >= order_time b)) sorted \/
  Forall (fun o => exists k t, py_getitem o "time" = Ok k /\ str_key k = Some t) sorted.
Proof.
  intros Hsort. destruct (sort_by_time_perm _ _ Hsort) as [Hperm _].
  revert Hsort. unfold sort_by_time_reverse.
  destruct (omap (fun x => py_getitem x "time") l) as [keys|e] eqn:Hk; cbn [obind];
    [|discriminate].
  apply omap_inv in Hk.
  destruct (length l <=? 1)%nat eqn:Hlen.
  { intros [= <-]. left. now apply Nat.leb_le. }
  destruct (mapM num_key keys) as [ks|] eqn:Hn.
  - intros [= <-]. right. left. apply mapM_Some_1 in Hn.
    pose proof (numeric_keyed _ _ _ Hk Hn) as Hkeyed.
    unfold sort_desc. apply keyed_sorted; [|apply isort_sorted].
    apply Forall_forall. intros p Hp. rewrite Forall_forall in Hkeyed. apply Hkeyed.
    apply list_elem_of_In. apply list_elem_of_In in Hp.
    eapply Permutation_in; [symmetry; apply isort_perm | exact Hp].
  - destruct (mapM str_key keys) as [ks|] eqn:Hst; [|discriminate].
    intros _. right. right. apply mapM_Some_1 in Hst.
    rewrite <- Hperm. eapply string_keyed; eassumption.
Qed.

Section ResultOrder.
Context `{Host}.
Variable self : BinanceAPI.

(** X16. When the orders returned have integer times, they come most
    recent first: along the list the time never increases. *)
Theorem returned_orders_sorted (limit : Z) (w : World) (r : list json) :
  fst (get_recent_filled_orders self limit w) = Ok r ->
  Forall (fun o => exists z, py_getitem o "time" = Ok (JInt z)) r ->
  Sorted (fun a b => (order_time a >= order_time b)) r.
Proof.
  intros Hr Hint.
  destruct (recent_orders_origin self _ _ _ Hr)
    as [->|(symbols & w1 & filled & sorted & _ & Hsort & ->)]; [apply Sorted_nil|].
  assert (exists n, py_slice_to limit sorted = firstn n sorted) as [n Hn].
  { unfold py_slice_to. destruct (0 <=? limit); eauto. }
  rewrite Hn in *.
  destruct (sort_by_time_cases _ _ Hsort) as [Hlen|[Hsorted|Hstr]].
  - pose proof (length_firstn n sorted) as Hle.
    destruct (firstn n sorted) as [|a [|b rest]].
    + apply Sorted_nil.
    + apply Sorted_cons; [apply Sorted_nil | apply HdRel_nil].
    + cbn [length] in Hle. lia.
  - now apply Sorted_take.
  - apply (Forall_take _ n) in Hstr.
    destruct (firstn n sorted) as [|a rest]; [apply Sorted_nil|].
    apply Forall_cons in Hint as [[z Hz] _]. apply Forall_cons in Hstr as [(k & t & Hk & Ht) _].
    rewrite Hz in Hk. injection Hk as <-. discriminate Ht.
Qed.

(** ** What is printed *)

Lemma make_request_stdout (endpoint : string) (params : option dict) (w : World) :
  (exists lines, stdout (snd (_make_request self endpoint params w)) = stdout w ++ lines) /\
  ((forall history r response,
       http_get history r = Ok response -> status_code response = 200) ->
   stdout (snd (_make_request self endpoint params w)) = stdout w).
Proof.
  split; [apply (make_request_world self endpoint params w)|].
  intros Hq. rewrite make_request_run. cbv zeta.
  destruct (http_get _ _) as [response|e] eqn:Hr; [|reflexivity].
  rewrite (Hq _ _ _ Hr). reflexivity.
Qed.

Lemma scan_stdout (symbols : list string) (all_filled_orders : list json) (w : World) :
  (exists lines, stdout (snd (scan self all_filled_orders symbols w)) = stdout w ++ lines) /\
  ((forall history r response,
       http_get history r = Ok response -> status_code response = 200) ->
   stdout (snd (scan self all_filled_orders symbols w)) = stdout w).
Proof.
  revert all_filled_orders w.
  induction symbols as [|s symbols IH]; intros acc w; cbn [scan].
  - unfold ret. cbn [snd]. split; [exists []; now rewrite app_nil_r | reflexivity].
  - unfold bind. rewrite scan_symbol_run.
    set (acc' := acc ++ fills_of (fst (get_all_orders self (JStr s) 20 w))).
    destruct (IH acc' (snd (get_all_orders self (JStr s) 20 w))) as [[l2 H2] Hq2].
    unfold get_all_orders in *. rewrite bind_ret in *.
    match goal with
    | |- context [_make_request self ?e ?p w] =>
        destruct (make_request_stdout e p w) as [[l1 H1] Hq1]
    end.
    split.
    + exists (l1 ++ l2). rewrite H2, H1. now rewrite app_assoc.
    + intros Hq. rewrite (Hq2 Hq). apply (Hq1 Hq).
Qed.

(** X17. [get_recent_filled_orders] only ever adds lines to the output, and
    it prints nothing at all when every reply it gets has status 200: the
    two lines of [_make_request] are its only output. *)
Theorem recent_orders_output (limit : Z) (w : World) :
  (exists lines,
      stdout (snd (get_recent_filled_orders self limit w)) = stdout w ++ lines) /\
  ((forall history r response,
       http_get history r = Ok response -> status_code response = 200) ->
   stdout (snd (get_recent_filled_orders self limit w)) = stdout w).
Proof.
  rewrite recent_orders_cases.
  destruct (make_request_stdout "/api/v3/account" None w) as [[l1 H1] Hq1].
  fold (get_account_info self) in H1, Hq1.
  destruct (get_account_info self w) as [[account_info|e] w1]; cbn [snd] in H1, Hq1;
    [|split; [eauto | exact Hq1]].
  destruct (py_truthy account_info); [|split; [eauto | exact Hq1]].
  destruct (candidate_symbols account_info) as [symbols|e]; [|split; [eauto | exact Hq1]].
  destruct (scan_stdout (firstn 15 symbols) [] w1) as [[l2 H2] Hq2].
  assert ((exists lines,
              stdout (snd (scan self [] (firstn 15 symbols) w1)) = stdout w ++ lines) /\
          ((forall history r response,
               http_get history r = Ok response -> status_code response = 200) ->
           stdout (snd (scan self [] (firstn 15 symbols) w1)) = stdout w)) as Hscan.
  { split.
    - exists (l1 ++ l2). rewrite H2, H1. now rewrite app_assoc.
    - intros Hq. rewrite (Hq2 Hq). apply (Hq1 Hq). }
  destruct (scan self [] (firstn 15 symbols) w1) as [[[|o filled]|e] w2];
    cbn [snd] in *; exact Hscan.
Qed.

End ResultOrder.

Lemma returned_orders_sorted_witness :
  Sorted (fun a b => (order_time a >= order_time b))
         [Fixture.order "BTCUSDT" 3 "FILLED" 300; Fixture.order "ETHUSDT" 7 "FILLED" 200].
Proof.
  apply (returned_orders_sorted (H:=Fixture.host) Fixture.client 2 Fixture.start).
  - vm_compute. reflexivity.
  - repeat constructor; eexists; reflexivity.
Defined.

Lemma recent_orders_output_witness :
  stdout (snd (get_recent_filled_orders (H:=Fixture.idle) Fixture.client 3 Fixture.start))
  = stdout Fixture.start.
Proof.
  apply (proj2 (recent_orders_output (H:=Fixture.idle) Fixture.client 3 Fixture.start)).
  intros history r response. cbn [http_get Fixture.idle]. unfold Fixture.idle_exchange.
  destruct (String.eqb _ _); intros [= <-]; reflexivity.
Defined.

(** ** How many candidates *)

Section Candidates.
Context `{Host}.

Lemma candidate_symbols_run (account_info : json) (items : list json)
    (symbols : list string) :
  obind (py_getitem account_info "balances") py_iter = Ok items ->
  candidate_symbols account_info = Ok symbols ->
  exists pairs,
    Forall2 (fun b l => balance_pairs b = Ok l) items pairs /\
    symbols = list_of_set (concat pairs ++ popular_symbols).
Proof.
  unfold candidate_symbols, symbols_with_balance.
  destruct (py_getitem account_info "balances") as [balances|e]; cbn [obind]; [|discriminate].
  intros ->. cbn [obind].
  destruct (omap balance_pairs items) as [pairs|e] eqn:Hp; cbn [obind]; [|discriminate].
  intros [= <-]. exists pairs. split; [now apply omap_inv | reflexivity].
Qed.

Lemma pairs_length (items : list json) (pairs : list (list string)) :
  Forall2 (fun b l => balance_pairs b = Ok l) items pairs ->
  length (concat pairs) = (5 * length (List.filter funded items))%nat.
Proof.
  induction 1 as [|b l items pairs Hb _ IH]; [reflexivity|].
  cbn [concat List.filter]. rewrite length_app, IH. unfold funded.
  destruct (balance_pairs_inv _ _ Hb) as [(-> & a & _ & ->)|(-> & ->)];
    cbn beta iota; unfold common_pairs; cbn [length]; lia.
Qed.

(** X19. An account on which no balance is positive gives the five popular
    symbols as candidates, each once, and nothing else. *)
Theorem no_funds_popular_only (account_info : json) (items : list json) :
  set_semantics H ->
  obind (py_getitem account_info "balances") py_iter = Ok items ->
  Forall (fun balance => has_balance balance = Ok false) items ->
  exists symbols,
    candidate_symbols account_info = Ok symbols /\
    Permutation symbols ["BTCUSDT"; "ETHUSDT"; "BNBUSDT"; "ADAUSDT"; "SOLUSDT"].
Proof.
  intros Hset Hitems Hnone.
  assert (omap balance_pairs items = Ok (map (fun _ => []) items)) as Hp.
  { clear Hitems. induction Hnone as [|b items Hb _ IH]; [reflexivity|].
    cbn [omap map]. unfold balance_pairs at 1. rewrite Hb. cbn [obind]. now rewrite IH. }
  pose proof (symbols_with_balance_run _ _ _ Hitems Hp) as Hrun.
  assert (concat (map (fun _ : json => @nil string) items) = []) as Hnil.
  { clear. induction items; [reflexivity | assumption]. }
  rewrite Hnil in Hrun. cbn [app] in Hrun.
  exists (list_of_set popular_symbols).
  split; [unfold candidate_symbols; now rewrite Hrun|].
  destruct (Hset popular_symbols) as [Hnd Hel].
  apply NoDup_Permutation; [exact Hnd | | exact Hel].
  apply (bool_decide_unpack _). vm_compute. reflexivity.
Qed.

(** X20. There are at most five candidates for each positive balance, and
    five more.  With at most two positive balances the cap of 15 therefore
    drops no candidate: every candidate symbol is scanned. *)
Theorem candidate_count (account_info : json) (items : list json) (symbols : list string) :
  set_semantics H ->
  obind (py_getitem account_info "balances") py_iter = Ok items ->
  candidate_symbols account_info = Ok symbols ->
  (length symbols <= 5 * length (List.filter funded items) + 5)%nat /\
  ((length (List.filter funded items) <= 2)%nat -> firstn 15 symbols = symbols).
Proof.
  intros Hset Hitems Hc.
  destruct (candidate_symbols_run _ _ _ Hitems Hc) as (pairs & Hpairs & ->).
  destruct (Hset (concat pairs ++ popular_symbols)) as [Hnd Hel].
  assert (length (list_of_set (concat pairs ++ popular_symbols))
          <= 5 * length (List.filter funded items) + 5)%nat as Hlen.
  { rewrite <- (pairs_length _ _ Hpairs).
    assert (length (concat pairs) + 5 = length (concat pairs ++ popular_symbols))%nat
      as -> by (rewrite length_app; reflexivity).
    apply submseteq_length, NoDup_submseteq; [exact Hnd|].
    intros x Hx. now apply Hel. }
  split; [exact Hlen|]. intros Hfew. apply firstn_all2. lia.
Qed.

End Candidates.

Lemma no_funds_popular_only_witness :
  exists symbols,
    candidate_symbols (H:=Fixture.host) Fixture.idle_account = Ok symbols /\
    Permutation symbols ["BTCUSDT"; "ETHUSDT"; "BNBUSDT"; "ADAUSDT"; "SOLUSDT"].
Proof.
  apply (no_funds_popular_only (H:=Fixture.host) Fixture.idle_account
           [Fixture.balance "BTC" "0.00000000" "0.00000000"]).
  - exact fixture_set_semantics.
  - reflexivity.
  - repeat constructor.
Defined.

Lemma candidate_count_witness :
  firstn 15 ["BTCBTC"; "ETHBTC"; "BTCETH"; "ETHETH"; "BTCUSDT"; "ETHUSDT";
             "BNBUSDT"; "ADAUSDT"; "SOLUSDT"]
  = ["BTCBTC"; "ETHBTC"; "BTCETH"; "ETHETH"; "BTCUSDT"; "ETHUSDT";
     "BNBUSDT"; "ADAUSDT"; "SOLUSDT"].
Proof.
  apply (candidate_count (H:=Fixture.host) Fixture.account
           [Fixture.balance "BTC" "0.50000000" "0.00000000";
            Fixture.balance "ETH" "1.25000000" "0.00000000";
            Fixture.balance "LTC" "0.00000000" "0.00000000"]).
  - exact fixture_set_semantics.
  - reflexivity.
  - vm_compute. reflexivity.
  - vm_compute. lia.
Defined.
